(** * Toyota car controller: per-cycle command synthesis

    A shallow embedding of [selfdrive/car/toyota/carcontroller.py]
    ([CarController.__init__] and [CarController.update]) together with the
    properties of its door automation, steering, longitudinal and alert
    stages.

    Conventions of the embedding.
    - Python [int] is [Z]; [%] and [//] with a positive divisor are
      [Z.modulo] and [Z.div].
    - Python [float] is modelled by exact rationals [Q]: comparisons and
      clamps are exact, infinities and NaN are not represented.
    - The object [self] is a record that every stage receives and returns;
      the list [can_sends] is threaded the same way, [append] being [++ [_]].
    - The frame encoder ([toyotacan], [make_can_msg], [CANPacker]) is outside
      this file: a bus message is kept as the encoder call that builds it,
      with the arguments [update] passes. *)

From Stdlib Require Import ZArith QArith Qabs Qround Bool List String Lia.
From Stdlib.Strings Require Import Byte.
Import ListNotations.

Local Open Scope Z_scope.

(** ** Numbers *)

(** [a < b] on floats. *)
Definition Qlt_bool (a b : Q) : bool := negb (Qle_bool b a).

(** Python's [round(x)] on a float, to the nearest integer, ties to even. *)
Definition py_round (x : Q) : Z :=
  let f := Qfloor x in
  let d := (x - inject_Z f)%Q in
  if Qlt_bool d 0.5 then f
  else if Qlt_bool 0.5 d then f + 1
  else if Z.even f then f else f + 1.

(** Modelled from the spec: [common.numpy_fast.clip] is not among the sources;
    the spec says "clamp to [lo, hi]". It is the usual
    [max(lo, min(hi, x))]. *)
Definition clip (x lo hi : Q) : Q :=
  let m := if Qlt_bool x hi then x else hi in
  if Qlt_bool lo m then m else lo.

(** Modelled from the spec: [common.numpy_fast.interp] is not among the
    sources; the spec says "piecewise-linear interpolation over speed",
    saturating outside the breakpoints. [xp] are the breakpoints (increasing),
    [fp] the values at the breakpoints. *)
Fixpoint interp_from (x xlo flo : Q) (xp fp : list Q) : Q :=
  match xp, fp with
  | xhi :: xp', fhi :: fp' =>
      if Qle_bool x xhi
      then ((x - xlo) * (fhi - flo) / (xhi - xlo) + flo)%Q
      else interp_from x xhi fhi xp' fp'
  | _, _ => flo
  end.

Definition interp (x : Q) (xp fp : list Q) : Q :=
  match xp, fp with
  | x0 :: xp', f0 :: fp' =>
      if Qle_bool x x0 then f0 else interp_from x x0 f0 xp' fp'
  | _, _ => 0%Q
  end.

(** Modelled from the spec: [common.conversions] is not among the sources; the
    spec gives the door-lock threshold as the "10 km/h equivalent" of a speed
    in m/s, so the factor is 1/3.6. *)
Definition KPH_TO_MS : Q := (1 / 3.6)%Q.

(** ** Enumerations of the message schema *)

Inductive SteerControlType := torque | angle.

Inductive VisualAlert :=
  | none | fcw | steerRequired | brakePressed | wrongGear
  | seatbeltUnbuckled | speedTooHigh | ldw.

Inductive GearShifter :=
  | unknown | park | drive | neutral | reverse | sport | low | brake | eco
  | manumatic.

Definition SteerControlType_eqb (a b : SteerControlType) : bool :=
  match a, b with torque, torque | angle, angle => true | _, _ => false end.

Definition VisualAlert_eqb (a b : VisualAlert) : bool :=
  match a, b with
  | none, none | fcw, fcw | steerRequired, steerRequired
  | brakePressed, brakePressed | wrongGear, wrongGear
  | seatbeltUnbuckled, seatbeltUnbuckled | speedTooHigh, speedTooHigh
  | ldw, ldw => true
  | _, _ => false
  end.

Definition GearShifter_eqb (a b : GearShifter) : bool :=
  match a, b with
  | unknown, unknown | park, park | drive, drive | neutral, neutral
  | reverse, reverse | sport, sport | low, low | brake, brake | eco, eco
  | manumatic, manumatic => true
  | _, _ => false
  end.

(** The vehicle models of [values.CAR]. [values.py] is not among the sources:
    the six models [update] names are constructors, every other model is
    [OTHER] with its fingerprint. *)
Inductive CAR :=
  | RAV4 | RAV4H | HIGHLANDER | HIGHLANDERH | COROLLA | PRIUS_V
  | OTHER (fingerprint : string).

Definition CAR_eqb (a b : CAR) : bool :=
  match a, b with
  | RAV4, RAV4 | RAV4H, RAV4H | HIGHLANDER, HIGHLANDER
  | HIGHLANDERH, HIGHLANDERH | COROLLA, COROLLA | PRIUS_V, PRIUS_V => true
  | OTHER s, OTHER t => String.eqb s t
  | _, _ => false
  end.

(** [c in cars]. *)
Definition car_in (c : CAR) (cars : list CAR) : bool :=
  existsb (CAR_eqb c) cars.

(** ** Inputs *)

Module Actuators.
Record t := mk {
  gas : Q;
  brake : Q;
  steer : Q;
  steerOutputCan : Q;
  steeringAngleDeg : Q;
  accel : Q
}.
End Actuators.

Module HUDControl.
Record t := mk {
  visualAlert : VisualAlert;
  leadVisible : bool;
  leftLaneVisible : bool;
  rightLaneVisible : bool;
  leftLaneDepart : bool;
  rightLaneDepart : bool
}.
End HUDControl.

(** [CC]; [cancel] is [CC.cruiseControl.cancel]. *)
Module CarControl.
Record t := mk {
  enabled : bool;
  latActive : bool;
  longActive : bool;
  actuators : Actuators.t;
  hudControl : HUDControl.t;
  cancel : bool
}.
End CarControl.

(** [CS]; the fields of [CS.out] come first. *)
Module CarState.
Record t := mk {
  steeringTorque : Q;
  steeringTorqueEps : Q;
  steeringRateDeg : Q;
  steeringAngleDeg : Q;
  steeringAngleOffsetDeg : Q;
  vEgo : Q;
  standstill : bool;
  gearShifter : GearShifter;
  doorOpen : bool;
  pcm_acc_status : Z;
  acc_type : Z;
  lkas_hud : list (string * Z)
}.
End CarState.

(** ** Configuration *)

Module CarParams.
Record t := mk {
  steerControlType : SteerControlType;
  carFingerprint : CAR;
  enableGasInterceptor : bool;
  openpilotLongitudinalControl : bool;
  enableDsu : bool
}.
End CarParams.

(** [values.CarControllerParams]: the limits [update] reads. [STEER_MAX] is a
    positive constant of the class. *)
Module CarControllerParams.
Record t := mk {
  STEER_MAX : positive;
  ACCEL_MIN : Q;
  ACCEL_MAX : Q
}.
End CarControllerParams.

(** The three flags [__init__] reads from the persistent parameter store. *)
Module Params.
Record t := mk {
  dp_toyota_auto_lock : bool;
  dp_toyota_auto_unlock : bool;
  dp_toyota_sng : bool
}.
End Params.

(** ** Bus messages *)

Inductive CanMsg :=
  | make_can_msg (addr : Z) (dat : list byte) (bus : Z)
  | create_steer_command (steer steer_req : Z)
  | create_lta_steer_command
      (steer_angle : Q) (steer_req : bool) (raw_cnt setme_x64 : Z)
  | create_acc_cancel_command
  | create_accel_command
      (accel : Q) (pcm_cancel standstill_req lead : bool) (acc_type : Z)
  | create_gas_interceptor_command (gas_amount : Q) (idx : Z)
  | create_ui_command
      (steer pcm_cancel left_line right_line left_lane_depart
       right_lane_depart enabled : bool)
      (stock_lkas_hud : list (string * Z))
  | create_fcw_command (fcw : bool).

(** ** Constants of the module *)

Definition MAX_STEER_RATE : Q := 100%Q.
Definition MAX_STEER_RATE_FRAMES : Z := 18.
Definition MAX_USER_TORQUE : Q := 500%Q.
Definition MAX_STEER_ANGLE : Q := 94.9461%Q.
Definition MAX_DRIVER_TORQUE_ALLOWANCE : Q := 150%Q.

Definition UNLOCK_CMD : list byte := [x40; x05; x30; x11; x00; x40; x00; x00].
Definition LOCK_CMD : list byte := [x40; x05; x30; x11; x00; x80; x00; x00].
Definition LOCK_AT_SPEED : Q := (10 * KPH_TO_MS)%Q.

(** ** The controller object *)

Module CarController.
Record t := mk {
  CP : CarParams.t;
  params : CarControllerParams.t;
  frame : Z;
  last_steer : Z;
  last_angle : Q;
  alert_active : bool;
  last_standstill : bool;
  standstill_req : bool;
  steer_rate_counter : Z;
  gas : Q;
  accel : Q;
  dp_toyota_auto_lock_gear_prev : GearShifter;
  dp_toyota_auto_lock_once : bool;
  dp_toyota_auto_lock : bool;
  dp_toyota_auto_unlock : bool;
  dp_toyota_sng : bool
}.

(** Assignments [self.field = v]. *)
Definition set_frame (s : t) (v : Z) : t :=
  mk (CP s) (params s) v (last_steer s) (last_angle s) (alert_active s)
     (last_standstill s) (standstill_req s) (steer_rate_counter s) (gas s)
     (accel s) (dp_toyota_auto_lock_gear_prev s)
     (dp_toyota_auto_lock_once s) (dp_toyota_auto_lock s)
     (dp_toyota_auto_unlock s) (dp_toyota_sng s).
Definition set_last_steer (s : t) (v : Z) : t :=
  mk (CP s) (params s) (frame s) v (last_angle s) (alert_active s)
     (last_standstill s) (standstill_req s) (steer_rate_counter s) (gas s)
     (accel s) (dp_toyota_auto_lock_gear_prev s)
     (dp_toyota_auto_lock_once s) (dp_toyota_auto_lock s)
     (dp_toyota_auto_unlock s) (dp_toyota_sng s).
Definition set_last_angle (s : t) (v : Q) : t :=
  mk (CP s) (params s) (frame s) (last_steer s) v (alert_active s)
     (last_standstill s) (standstill_req s) (steer_rate_counter s) (gas s)
     (accel s) (dp_toyota_auto_lock_gear_prev s)
     (dp_toyota_auto_lock_once s) (dp_toyota_auto_lock s)
     (dp_toyota_auto_unlock s) (dp_toyota_sng s).
Definition set_alert_active (s : t) (v : bool) : t :=
  mk (CP s) (params s) (frame s) (last_steer s) (last_angle s) v
     (last_standstill s) (standstill_req s) (steer_rate_counter s) (gas s)
     (accel s) (dp_toyota_auto_lock_gear_prev s)
     (dp_toyota_auto_lock_once s) (dp_toyota_auto_lock s)
     (dp_toyota_auto_unlock s) (dp_toyota_sng s).
Definition set_last_standstill (s : t) (v : bool) : t :=
  mk (CP s) (params s) (frame s) (last_steer s) (last_angle s)
     (alert_active s) v (standstill_req s) (steer_rate_counter s) (gas s)
     (accel s) (dp_toyota_auto_lock_gear_prev s)
     (dp_toyota_auto_lock_once s) (dp_toyota_auto_lock s)
     (dp_toyota_auto_unlock s) (dp_toyota_sng s).
Definition set_standstill_req (s : t) (v : bool) : t :=
  mk (CP s) (params s) (frame s) (last_steer s) (last_angle s)
     (alert_active s) (last_standstill s) v (steer_rate_counter s) (gas s)
     (accel s) (dp_toyota_auto_lock_gear_prev s)
     (dp_toyota_auto_lock_once s) (dp_toyota_auto_lock s)
     (dp_toyota_auto_unlock s) (dp_toyota_sng s).
Definition set_steer_rate_counter (s : t) (v : Z) : t :=
  mk (CP s) (params s) (frame s) (last_steer s) (last_angle s)
     (alert_active s) (last_standstill s) (standstill_req s) v (gas s)
     (accel s) (dp_toyota_auto_lock_gear_prev s)
     (dp_toyota_auto_lock_once s) (dp_toyota_auto_lock s)
     (dp_toyota_auto_unlock s) (dp_toyota_sng s).
Definition set_gas (s : t) (v : Q) : t :=
  mk (CP s) (params s) (frame s) (last_steer s) (last_angle s)
     (alert_active s) (last_standstill s) (standstill_req s)
     (steer_rate_counter s) v (accel s) (dp_toyota_auto_lock_gear_prev s)
     (dp_toyota_auto_lock_once s) (dp_toyota_auto_lock s)
     (dp_toyota_auto_unlock s) (dp_toyota_sng s).
Definition set_accel (s : t) (v : Q) : t :=
  mk (CP s) (params s) (frame s) (last_steer s) (last_angle s)
     (alert_active s) (last_standstill s) (standstill_req s)
     (steer_rate_counter s) (gas s) v (dp_toyota_auto_lock_gear_prev s)
     (dp_toyota_auto_lock_once s) (dp_toyota_auto_lock s)
     (dp_toyota_auto_unlock s) (dp_toyota_sng s).
Definition set_dp_toyota_auto_lock_gear_prev (s : t) (v : GearShifter) : t :=
  mk (CP s) (params s) (frame s) (last_steer s) (last_angle s)
     (alert_active s) (last_standstill s) (standstill_req s)
     (steer_rate_counter s) (gas s) (accel s) v
     (dp_toyota_auto_lock_once s) (dp_toyota_auto_lock s)
     (dp_toyota_auto_unlock s) (dp_toyota_sng s).
Definition set_dp_toyota_auto_lock_once (s : t) (v : bool) : t :=
  mk (CP s) (params s) (frame s) (last_steer s) (last_angle s)
     (alert_active s) (last_standstill s) (standstill_req s)
     (steer_rate_counter s) (gas s) (accel s)
     (dp_toyota_auto_lock_gear_prev s) v (dp_toyota_auto_lock s)
     (dp_toyota_auto_unlock s) (dp_toyota_sng s).
End CarController.

(** ** [CarController.__init__]

    [make_params] stands for the call [CarControllerParams(self.CP)], [p]
    for the parameter store. *)
Definition init (CP : CarParams.t)
    (make_params : CarParams.t -> CarControllerParams.t) (p : Params.t)
    : CarController.t :=
  {| CarController.CP := CP;
     CarController.params := make_params CP;
     CarController.frame := 0;
     CarController.last_steer := 0;
     CarController.last_angle := 0%Q;
     CarController.alert_active := false;
     CarController.last_standstill := false;
     CarController.standstill_req := false;
     CarController.steer_rate_counter := 0;
     CarController.gas := 0%Q;
     CarController.accel := 0%Q;
     CarController.dp_toyota_auto_lock_gear_prev := park;
     CarController.dp_toyota_auto_lock_once := false;
     CarController.dp_toyota_auto_lock := Params.dp_toyota_auto_lock p;
     CarController.dp_toyota_auto_unlock := Params.dp_toyota_auto_unlock p;
     CarController.dp_toyota_sng := Params.dp_toyota_sng p |}.

(** ** A sample configuration

    Concrete values for what [values.py], [selfdrive.car] and the caller
    provide, to evaluate the controller on. The two limit functions are
    stand-ins: the torque one only clamps to [STEER_MAX], the angle one
    applies no rate limit. *)

Module Sample.
Definition TSS2_CAR : list CAR :=
  [OTHER "TOYOTA RAV4 2019"; OTHER "LEXUS ES 2019"].
Definition NO_STOP_TIMER_CAR : list CAR :=
  [OTHER "TOYOTA RAV4 2019"; OTHER "LEXUS ES 2019"].
Definition UNSUPPORTED_DSU_CAR : list CAR := [OTHER "LEXUS IS 2018"].
Definition STATIC_DSU_MSGS
  : list (Z * list CAR * Z * positive * list byte) :=
  [(0x128, [RAV4; COROLLA], 1, 3%positive, [xf4; x01; x90; x83; x00; x37]);
   (0x141, [RAV4; COROLLA], 1, 2%positive, [x00; x00; x00; x46])].
Definition MIN_ACC_SPEED : Q := 8.49376%Q.
Definition PEDAL_TRANSITION : Q := 4.4704%Q.

Definition apply_meas_steer_torque_limits (new_steer last_steer : Z)
    (torque_eps : Q) (params : CarControllerParams.t) : Z :=
  let steer_max := Zpos (CarControllerParams.STEER_MAX params) in
  Z.max (- steer_max) (Z.min steer_max new_steer).

Definition apply_std_steer_angle_limits (apply_angle last_angle v_ego : Q)
    (params : CarControllerParams.t) : Q :=
  apply_angle.

Definition params (CP : CarParams.t) : CarControllerParams.t :=
  {| CarControllerParams.STEER_MAX := 1500;
     CarControllerParams.ACCEL_MIN := (-3.5)%Q;
     CarControllerParams.ACCEL_MAX := 1.5%Q |}.

Definition CP (fingerprint : CAR) (control : SteerControlType)
    : CarParams.t :=
  {| CarParams.steerControlType := control;
     CarParams.carFingerprint := fingerprint;
     CarParams.enableGasInterceptor := false;
     CarParams.openpilotLongitudinalControl := true;
     CarParams.enableDsu := true |}.

Definition flags (auto_lock auto_unlock : bool) : Params.t :=
  {| Params.dp_toyota_auto_lock := auto_lock;
     Params.dp_toyota_auto_unlock := auto_unlock;
     Params.dp_toyota_sng := false |}.

(** The caller asks for half the steering torque, 5 degrees and 1 m/s^2. *)
Definition CC (latActive : bool) (alert : VisualAlert) : CarControl.t :=
  {| CarControl.enabled := true;
     CarControl.latActive := latActive;
     CarControl.longActive := true;
     CarControl.actuators :=
       {| Actuators.gas := 0%Q; Actuators.brake := 0%Q;
          Actuators.steer := 0.5%Q; Actuators.steerOutputCan := 0%Q;
          Actuators.steeringAngleDeg := 5%Q; Actuators.accel := 1%Q |};
     CarControl.hudControl :=
       {| HUDControl.visualAlert := alert;
          HUDControl.leadVisible := false;
          HUDControl.leftLaneVisible := true;
          HUDControl.rightLaneVisible := true;
          HUDControl.leftLaneDepart := false;
          HUDControl.rightLaneDepart := false |};
     CarControl.cancel := false |}.

(** A new controller for a car model and a steer control type. *)
Definition self (fingerprint : CAR) (control : SteerControlType)
    (auto_lock auto_unlock : bool) : CarController.t :=
  init (CP fingerprint control) params (flags auto_lock auto_unlock).

(** The car with its doors closed and the steering wheel at 10 degrees. *)
Definition CS (torque rate v_ego : Q) (gear : GearShifter)
    (standstill : bool) (status : Z) : CarState.t :=
  {| CarState.steeringTorque := torque;
     CarState.steeringTorqueEps := 0%Q;
     CarState.steeringRateDeg := rate;
     CarState.steeringAngleDeg := 10%Q;
     CarState.steeringAngleOffsetDeg := 0%Q;
     CarState.vEgo := v_ego;
     CarState.standstill := standstill;
     CarState.gearShifter := gear;
     CarState.doorOpen := false;
     CarState.pcm_acc_status := status;
     CarState.acc_type := 1;
     CarState.lkas_hud := [] |}.

(** A car with lateral control only: no openpilot longitudinal control, no
    DSU, no gas interceptor. *)
Definition CP_lat_only (fingerprint : CAR) : CarParams.t :=
  {| CarParams.steerControlType := torque;
     CarParams.carFingerprint := fingerprint;
     CarParams.enableGasInterceptor := false;
     CarParams.openpilotLongitudinalControl := false;
     CarParams.enableDsu := false |}.

Definition self_lat_only (fingerprint : CAR) : CarController.t :=
  init (CP_lat_only fingerprint) params (flags true true).

(** The caller asks to cancel. *)
Definition CC_cancel : CarControl.t :=
  {| CarControl.enabled := true;
     CarControl.latActive := true;
     CarControl.longActive := true;
     CarControl.actuators := CarControl.actuators (CC true none);
     CarControl.hudControl := CarControl.hudControl (CC true none);
     CarControl.cancel := true |}.

(** The car as in [CS], with a door open. *)
Definition CS_door_open (v_ego : Q) (gear : GearShifter) : CarState.t :=
  {| CarState.steeringTorque := 0%Q;
     CarState.steeringTorqueEps := 0%Q;
     CarState.steeringRateDeg := 0%Q;
     CarState.steeringAngleDeg := 10%Q;
     CarState.steeringAngleOffsetDeg := 0%Q;
     CarState.vEgo := v_ego;
     CarState.standstill := false;
     CarState.gearShifter := gear;
     CarState.doorOpen := true;
     CarState.pcm_acc_status := 8;
     CarState.acc_type := 1;
     CarState.lkas_hud := [] |}.
End Sample.

(** ** [CarController.update] *)

Section Controller.

(** What [update] imports from modules that are not among the sources:
    the model lists and the keep-alive table of [values.py], the pedal
    constants, and the two limit functions of [selfdrive.car]. *)
Variable TSS2_CAR : list CAR.
Variable NO_STOP_TIMER_CAR : list CAR.
Variable UNSUPPORTED_DSU_CAR : list CAR.
(** Rows [(addr, cars, bus, fr_step, vl)]; [fr_step] is a positive
    constant in every row. *)
Variable STATIC_DSU_MSGS : list (Z * list CAR * Z * positive * list byte).
Variable MIN_ACC_SPEED : Q.
Variable PEDAL_TRANSITION : Q.
Variable apply_meas_steer_torque_limits :
  Z -> Z -> Q -> CarControllerParams.t -> Z.
Variable apply_std_steer_angle_limits :
  Q -> Q -> Q -> CarControllerParams.t -> Q.

Import CarController.

(** Line 65. *)
Definition lat_active (CC : CarControl.t) (CS : CarState.t) : bool :=
  CarControl.latActive CC
  && Qlt_bool (Qabs (CarState.steeringTorque CS)) MAX_USER_TORQUE.

(** Lines 70-83: door auto lock / unlock. *)
Definition door_auto_lock (self : t) (CS : CarState.t)
    (can_sends : list CanMsg) : t * list CanMsg :=
  if negb (CarState.doorOpen CS) then
    let gear := CarState.gearShifter CS in
    let '(self, can_sends) :=
      if GearShifter_eqb gear park
         && negb (GearShifter_eqb (dp_toyota_auto_lock_gear_prev self) gear)
      then
        let can_sends :=
          if dp_toyota_auto_lock self
          then can_sends ++ [make_can_msg 0x750 UNLOCK_CMD 0]
          else can_sends in
        (set_dp_toyota_auto_lock_once self false, can_sends)
      else if GearShifter_eqb gear drive
              && negb (dp_toyota_auto_lock_once self)
              && Qle_bool LOCK_AT_SPEED (CarState.vEgo CS)
      then
        let can_sends :=
          if dp_toyota_auto_unlock self
          then can_sends ++ [make_can_msg 0x750 LOCK_CMD 0]
          else can_sends in
        (set_dp_toyota_auto_lock_once self true, can_sends)
      else (self, can_sends) in
    (set_dp_toyota_auto_lock_gear_prev self gear, can_sends)
  else (self, can_sends).

(** Line 90: the steering rate is at or above the fault threshold while
    lateral control is active. *)
Definition steer_rate_high (CC : CarControl.t) (CS : CarState.t) : bool :=
  lat_active CC CS
  && Qle_bool MAX_STEER_RATE (Qabs (CarState.steeringRateDeg CS)).

(** Lines 85-101: steer torque; returns [self], [apply_steer] and
    [apply_steer_req]. *)
Definition steer_torque (self : t) (CC : CarControl.t) (CS : CarState.t)
    : t * Z * Z :=
  let lat_active := lat_active CC CS in
  let new_steer :=
    py_round (Actuators.steer (CarControl.actuators CC)
              * inject_Z (Zpos (CarControllerParams.STEER_MAX (params self))))%Q in
  let apply_steer :=
    apply_meas_steer_torque_limits new_steer (last_steer self)
      (CarState.steeringTorqueEps CS) (params self) in
  let self :=
    if steer_rate_high CC CS
    then set_steer_rate_counter self (steer_rate_counter self + 1)
    else set_steer_rate_counter self 0 in
  let apply_steer_req := 1 in
  if negb lat_active then (self, 0, 0)
  else if steer_rate_counter self >? MAX_STEER_RATE_FRAMES
  then (set_steer_rate_counter self 0, apply_steer, 0)
  else (self, apply_steer, apply_steer_req).

(** Lines 103-118: steer angle. *)
Definition steer_angle (self : t) (CC : CarControl.t) (CS : CarState.t)
    (apply_steer apply_steer_req : Z) : t * Z * Z :=
  if SteerControlType_eqb (CarParams.steerControlType (CP self)) angle then
    let self :=
      if frame self mod 2 =? 0 then
        let apply_angle :=
          (Actuators.steeringAngleDeg (CarControl.actuators CC)
           + CarState.steeringAngleOffsetDeg CS)%Q in
        let apply_angle :=
          apply_std_steer_angle_limits apply_angle (last_angle self)
            (CarState.vEgo CS) (params self) in
        let apply_angle :=
          if negb (lat_active CC CS)
          then (CarState.steeringAngleDeg CS
                + CarState.steeringAngleOffsetDeg CS)%Q
          else apply_angle in
        set_last_angle self
          (clip apply_angle (- MAX_STEER_ANGLE)%Q MAX_STEER_ANGLE)
      else self in
    (self, 0, 0)
  else (self, apply_steer, apply_steer_req).

(** Lines 125-131: the steer command, and the LTA command of TSS2 cars. *)
Definition steer_msgs (self : t) (CC : CarControl.t) (CS : CarState.t)
    (apply_steer apply_steer_req : Z) (can_sends : list CanMsg)
    : list CanMsg :=
  let can_sends :=
    can_sends ++ [create_steer_command apply_steer apply_steer_req] in
  if (frame self mod 2 =? 0)
     && car_in (CarParams.carFingerprint (CP self)) TSS2_CAR
  then
    let lta_active :=
      lat_active CC CS
      && SteerControlType_eqb (CarParams.steerControlType (CP self)) angle in
    let full_torque_condition :=
      Qlt_bool (Qabs (CarState.steeringTorqueEps CS))
               (inject_Z (Zpos (CarControllerParams.STEER_MAX (params self))))
      && Qlt_bool (Qabs (CarState.steeringTorque CS))
                  MAX_DRIVER_TORQUE_ALLOWANCE in
    let setme_x64 :=
      if lta_active && full_torque_condition then 100 else 0 in
    can_sends
    ++ [create_lta_steer_command
          (if lta_active then last_angle self else 0%Q) lta_active
          (frame self / 2) setme_x64]
  else can_sends.

(** Lines 134-148: the pedal command [interceptor_gas_cmd]. *)
Definition MAX_INTERCEPTOR_GAS : Q := 0.5%Q.

Definition PEDAL_SCALE (fingerprint : CAR) (vEgo : Q) : Q :=
  let xp :=
    [0.0; MIN_ACC_SPEED; MIN_ACC_SPEED + PEDAL_TRANSITION]%Q in
  if car_in fingerprint [RAV4; RAV4H; HIGHLANDER; HIGHLANDERH]
  then interp vEgo xp [0.15; 0.3; 0.0]%Q
  else if car_in fingerprint [COROLLA]
  then interp vEgo xp [0.3; 0.4; 0.0]%Q
  else interp vEgo xp [0.4; 0.5; 0.0]%Q.

Definition pedal_offset (vEgo : Q) : Q :=
  interp vEgo [0.0; 2.3; MIN_ACC_SPEED + PEDAL_TRANSITION]%Q
    [-0.4; 0.0; 0.2]%Q.

Definition interceptor_gas_cmd (self : t) (CC : CarControl.t)
    (CS : CarState.t) : Q :=
  if CarParams.enableGasInterceptor (CP self) && CarControl.longActive CC
  then
    let pedal_command :=
      (PEDAL_SCALE (CarParams.carFingerprint (CP self)) (CarState.vEgo CS)
       * (Actuators.accel (CarControl.actuators CC)
          + pedal_offset (CarState.vEgo CS)))%Q in
    clip pedal_command 0%Q MAX_INTERCEPTOR_GAS
  else 0%Q.

(** Line 149. *)
Definition pcm_accel_cmd (self : t) (CC : CarControl.t) : Q :=
  clip (Actuators.accel (CarControl.actuators CC))
    (CarControllerParams.ACCEL_MIN (params self))
    (CarControllerParams.ACCEL_MAX (params self)).

(** Lines 64 and 153-154: the cancel request after the override. *)
Definition pcm_cancel_cmd (CC : CarControl.t) (CS : CarState.t) : bool :=
  if negb (CarControl.enabled CC)
     && negb (CarState.pcm_acc_status CS =? 0)
  then true
  else CarControl.cancel CC.

(** Line 157: the car newly enters standstill, the request is not
    suppressed, and the car is not a no-stop-timer car or has a gas
    interceptor. *)
Definition standstill_entry (self : t) (CS : CarState.t) : bool :=
  negb (dp_toyota_sng self)
  && CarState.standstill CS
  && negb (last_standstill self)
  && (negb (car_in (CarParams.carFingerprint (CP self)) NO_STOP_TIMER_CAR)
      || CarParams.enableGasInterceptor (CP self)).

(** Lines 156-163: the standstill request. *)
Definition standstill (self : t) (CS : CarState.t) : t :=
  let self :=
    if standstill_entry self CS
    then set_standstill_req self true
    else self in
  let self :=
    if negb (CarState.pcm_acc_status CS =? 8)
    then set_standstill_req self false
    else self in
  set_last_standstill self (CarState.standstill CS).

(** Lines 165-176: the accel / cancel message. *)
Definition long_msgs (self : t) (CC : CarControl.t) (CS : CarState.t)
    (can_sends : list CanMsg) : t * list CanMsg :=
  let pcm_cancel_cmd := pcm_cancel_cmd CC CS in
  if ((frame self mod 3 =? 0)
      && CarParams.openpilotLongitudinalControl (CP self))
     || pcm_cancel_cmd
  then
    let lead :=
      HUDControl.leadVisible (CarControl.hudControl CC)
      || Qlt_bool (CarState.vEgo CS) 12%Q in
    if pcm_cancel_cmd
       && car_in (CarParams.carFingerprint (CP self)) UNSUPPORTED_DSU_CAR
    then (self, can_sends ++ [create_acc_cancel_command])
    else if CarParams.openpilotLongitudinalControl (CP self)
    then
      (set_accel self (pcm_accel_cmd self CC),
       can_sends
       ++ [create_accel_command (pcm_accel_cmd self CC) pcm_cancel_cmd
             (standstill_req self) lead (CarState.acc_type CS)])
    else
      (self,
       can_sends
       ++ [create_accel_command 0%Q pcm_cancel_cmd false lead
             (CarState.acc_type CS)])
  else (self, can_sends).

(** Lines 178-182: the gas interceptor message. *)
Definition gas_msgs (self : t) (CC : CarControl.t) (CS : CarState.t)
    (can_sends : list CanMsg) : t * list CanMsg :=
  if (frame self mod 2 =? 0)
     && CarParams.enableGasInterceptor (CP self)
     && CarParams.openpilotLongitudinalControl (CP self)
  then
    (set_gas self (interceptor_gas_cmd self CC CS),
     can_sends
     ++ [create_gas_interceptor_command (interceptor_gas_cmd self CC CS)
           (frame self / 2)])
  else (self, can_sends).

(** Lines 189-190. *)
Definition fcw_alert (CC : CarControl.t) : bool :=
  VisualAlert_eqb (HUDControl.visualAlert (CarControl.hudControl CC)) fcw.

Definition steer_alert (CC : CarControl.t) : bool :=
  VisualAlert_eqb (HUDControl.visualAlert (CarControl.hudControl CC))
    steerRequired
  || VisualAlert_eqb (HUDControl.visualAlert (CarControl.hudControl CC)) ldw.

(** Lines 193-194: some alert is to be displayed now. *)
Definition alert_now (CC : CarControl.t) : bool :=
  fcw_alert CC || steer_alert CC.

(** Lines 184-207: hud ui. *)
Definition hud_ui (self : t) (CC : CarControl.t) (CS : CarState.t)
    (can_sends : list CanMsg) : t * list CanMsg :=
  if negb (CAR_eqb (CarParams.carFingerprint (CP self)) PRIUS_V) then
    let fcw_alert := fcw_alert CC in
    let steer_alert := steer_alert CC in
    let pcm_cancel_cmd := pcm_cancel_cmd CC CS in
    let hud_control := CarControl.hudControl CC in
    let '(self, send_ui) :=
      if ((fcw_alert || steer_alert) && negb (alert_active self))
         || (negb (fcw_alert || steer_alert) && alert_active self)
      then (set_alert_active self (negb (alert_active self)), true)
      else if pcm_cancel_cmd then (self, true)
      else (self, false) in
    let can_sends :=
      if (frame self mod 20 =? 0) || send_ui
      then
        can_sends
        ++ [create_ui_command steer_alert pcm_cancel_cmd
              (HUDControl.leftLaneVisible hud_control)
              (HUDControl.rightLaneVisible hud_control)
              (HUDControl.leftLaneDepart hud_control)
              (HUDControl.rightLaneDepart hud_control)
              (CarControl.enabled CC) (CarState.lkas_hud CS)]
      else can_sends in
    let can_sends :=
      if ((frame self mod 100 =? 0) || send_ui)
         && CarParams.enableDsu (CP self)
      then can_sends ++ [create_fcw_command fcw_alert]
      else can_sends in
    (self, can_sends)
  else (self, can_sends).

(** Lines 209-212: static msgs, one loop iteration per row. *)
Fixpoint static_msgs (self : t)
    (rows : list (Z * list CAR * Z * positive * list byte))
    (can_sends : list CanMsg) : list CanMsg :=
  match rows with
  | [] => can_sends
  | (addr, cars, bus, fr_step, vl) :: rows' =>
      let can_sends :=
        if (frame self mod Zpos fr_step =? 0)
           && CarParams.enableDsu (CP self)
           && car_in (CarParams.carFingerprint (CP self)) cars
        then can_sends ++ [make_can_msg addr vl bus]
        else can_sends in
      static_msgs self rows' can_sends
  end.

(** Lines 214-219: the echoed actuators. *)
Definition new_actuators (self : t) (CC : CarControl.t) (apply_steer : Z)
    : Actuators.t :=
  let actuators := CarControl.actuators CC in
  {| Actuators.gas := gas self;
     Actuators.brake := Actuators.brake actuators;
     Actuators.steer :=
       (inject_Z apply_steer
        / inject_Z (Zpos (CarControllerParams.STEER_MAX (params self))))%Q;
     Actuators.steerOutputCan := inject_Z apply_steer;
     Actuators.steeringAngleDeg := last_angle self;
     Actuators.accel := accel self |}.

(** [update], lines 61-222 ([now_nanos] is not read). *)
Definition update (self : t) (CC : CarControl.t) (CS : CarState.t)
    : t * (Actuators.t * list CanMsg) :=
  let can_sends := [] in
  let '(self, can_sends) := door_auto_lock self CS can_sends in
  let '(self, apply_steer, apply_steer_req) := steer_torque self CC CS in
  let '(self, apply_steer, apply_steer_req) :=
    steer_angle self CC CS apply_steer apply_steer_req in
  let self := set_last_steer self apply_steer in
  let can_sends :=
    steer_msgs self CC CS apply_steer apply_steer_req can_sends in
  let self := standstill self CS in
  let '(self, can_sends) := long_msgs self CC CS can_sends in
  let '(self, can_sends) := gas_msgs self CC CS can_sends in
  let '(self, can_sends) := hud_ui self CC CS can_sends in
  let can_sends := static_msgs self STATIC_DSU_MSGS can_sends in
  let new_actuators := new_actuators self CC apply_steer in
  let self := set_frame self (frame self + 1) in
  (self, (new_actuators, can_sends)).

(** The controller after a sequence of cycles, and what each cycle
    returned. *)
Fixpoint run (self : t) (inputs : list (CarControl.t * CarState.t))
    : t * list (Actuators.t * list CanMsg) :=
  match inputs with
  | [] => (self, [])
  | (CC, CS) :: inputs' =>
      let '(self, out) := update self CC CS in
      let '(self, outs) := run self inputs' in
      (self, out :: outs)
  end.

(** ** Reading the returned message list *)

Definition is_steer_command (m : CanMsg) : bool :=
  match m with create_steer_command _ _ => true | _ => false end.

Definition is_lta_steer_command (m : CanMsg) : bool :=
  match m with create_lta_steer_command _ _ _ _ => true | _ => false end.

(** The accel / cancel message of lines 171, 173 and 176. *)
Definition is_long_command (m : CanMsg) : bool :=
  match m with
  | create_acc_cancel_command | create_accel_command _ _ _ _ _ => true
  | _ => false
  end.

Definition is_gas_interceptor_command (m : CanMsg) : bool :=
  match m with create_gas_interceptor_command _ _ => true | _ => false end.

Definition is_ui_command (m : CanMsg) : bool :=
  match m with create_ui_command _ _ _ _ _ _ _ _ => true | _ => false end.

Definition is_fcw_command (m : CanMsg) : bool :=
  match m with create_fcw_command _ => true | _ => false end.

(** The two door commands of lines 77 and 81. *)
Definition is_door_command (m : CanMsg) : bool :=
  match m with
  | make_can_msg addr dat bus =>
      (addr =? 0x750) && (bus =? 0)
      && (if list_eq_dec Byte.byte_eq_dec dat UNLOCK_CMD then true
          else if list_eq_dec Byte.byte_eq_dec dat LOCK_CMD then true
          else false)
  | _ => false
  end.

(** A keep-alive message of the static table. *)
Definition is_static_msg (rows : list (Z * list CAR * Z * positive * list byte))
    (m : CanMsg) : Prop :=
  exists addr cars bus fr_step vl,
    In (addr, cars, bus, fr_step, vl) rows /\ m = make_can_msg addr vl bus.

(** What a cycle sent before its steer command: the door commands. *)
Fixpoint door_cmds (can_sends : list CanMsg) : list CanMsg :=
  match can_sends with
  | [] => []
  | m :: rest => if is_steer_command m then [] else m :: door_cmds rest
  end.

(** The [(apply_steer, apply_steer_req)] of the steer commands sent. *)
Definition steer_cmds (can_sends : list CanMsg) : list (Z * Z) :=
  flat_map
    (fun m => match m with create_steer_command a r => [(a, r)] | _ => [] end)
    can_sends.

(** The angles of the LTA commands sent. *)
Definition lta_angles (can_sends : list CanMsg) : list Q :=
  flat_map
    (fun m =>
       match m with create_lta_steer_command a _ _ _ => [a] | _ => [] end)
    can_sends.

(** The pedal values of the gas interceptor commands sent. *)
Definition gas_cmds (can_sends : list CanMsg) : list Q :=
  flat_map
    (fun m =>
       match m with create_gas_interceptor_command g _ => [g] | _ => [] end)
    can_sends.

(** The accel / cancel messages sent, and the UI alert messages sent. *)
Definition long_cmds (can_sends : list CanMsg) : list CanMsg :=
  filter is_long_command can_sends.

Definition ui_cmds (can_sends : list CanMsg) : list CanMsg :=
  filter is_ui_command can_sends.

(** The encoder call behind a message. *)
Inductive Kind := KCan | KSteer | KLta | KLong | KGas | KUi | KFcw.

Definition kind (m : CanMsg) : Kind :=
  match m with
  | make_can_msg _ _ _ => KCan
  | create_steer_command _ _ => KSteer
  | create_lta_steer_command _ _ _ _ => KLta
  | create_acc_cancel_command | create_accel_command _ _ _ _ _ => KLong
  | create_gas_interceptor_command _ _ => KGas
  | create_ui_command _ _ _ _ _ _ _ _ => KUi
  | create_fcw_command _ => KFcw
  end.

Definition all_kind (K : Kind) (l : list CanMsg) : Prop :=
  Forall (fun m => kind m = K) l.

(** The two door commands. *)
Definition DOOR_UNLOCK : CanMsg := make_can_msg 0x750 UNLOCK_CMD 0.
Definition DOOR_LOCK : CanMsg := make_can_msg 0x750 LOCK_CMD 0.

(** The commanded angle is within the EPS limit. *)
Definition angle_ok (a : Q) : Prop :=
  (- MAX_STEER_ANGLE <= a <= MAX_STEER_ANGLE)%Q.

(** The [(accel, pcm_cancel, standstill_req, lead)] of the accel commands
    sent. *)
Definition accel_cmds (can_sends : list CanMsg)
    : list (Q * bool * bool * bool) :=
  flat_map
    (fun m =>
       match m with
       | create_accel_command a c s l _ => [(a, c, s, l)]
       | _ => []
       end)
    can_sends.

(** The LTA commands and the forward-collision messages sent. *)
Definition lta_cmds (can_sends : list CanMsg) : list CanMsg :=
  filter is_lta_steer_command can_sends.

Definition fcw_cmds (can_sends : list CanMsg) : list CanMsg :=
  filter is_fcw_command can_sends.

(** The raw messages sent: door commands and static messages. *)
Definition is_can_msg (m : CanMsg) : bool :=
  match m with make_can_msg _ _ _ => true | _ => false end.

Definition can_msgs (can_sends : list CanMsg) : list CanMsg :=
  filter is_can_msg can_sends.

(** The static messages due at a frame for a car, in table order. *)
Definition static_due (frame : Z) (CP : CarParams.t)
    (rows : list (Z * list CAR * Z * positive * list byte)) : list CanMsg :=
  flat_map
    (fun row =>
       let '(addr, cars, bus, fr_step, vl) := row in
       if (frame mod Zpos fr_step =? 0)
          && CarParams.enableDsu CP
          && car_in (CarParams.carFingerprint CP) cars
       then [make_can_msg addr vl bus] else [])
    rows.

(** All door commands and all accel / cancel messages of a run. *)
Definition run_door_cmds (outs : list (Actuators.t * list CanMsg))
    : list CanMsg :=
  flat_map (fun out => door_cmds (snd out)) outs.

Definition run_long_cmds (outs : list (Actuators.t * list CanMsg))
    : list CanMsg :=
  flat_map (fun out => long_cmds (snd out)) outs.

(** The accel / cancel message due in a cycle, given the standstill request
    of that cycle. *)
Definition long_msg_due (self : t) (CC : CarControl.t) (CS : CarState.t)
    (standstill_req : bool) : list CanMsg :=
  if ((frame self mod 3 =? 0)
      && CarParams.openpilotLongitudinalControl (CP self))
     || pcm_cancel_cmd CC CS
  then
    let lead :=
      HUDControl.leadVisible (CarControl.hudControl CC)
      || Qlt_bool (CarState.vEgo CS) 12%Q in
    [if pcm_cancel_cmd CC CS
        && car_in (CarParams.carFingerprint (CP self)) UNSUPPORTED_DSU_CAR
     then create_acc_cancel_command
     else if CarParams.openpilotLongitudinalControl (CP self)
     then create_accel_command (pcm_accel_cmd self CC) (pcm_cancel_cmd CC CS)
            standstill_req lead (CarState.acc_type CS)
     else create_accel_command 0%Q (pcm_cancel_cmd CC CS) false lead
            (CarState.acc_type CS)]
  else [].

(** Whether the cycle stores a new accel command (line 174). *)
Definition accel_stored (self : t) (CC : CarControl.t) (CS : CarState.t)
    : bool :=
  (((frame self mod 3 =? 0)
    && CarParams.openpilotLongitudinalControl (CP self))
   || pcm_cancel_cmd CC CS)
  && negb (pcm_cancel_cmd CC CS
           && car_in (CarParams.carFingerprint (CP self)) UNSUPPORTED_DSU_CAR)
  && CarParams.openpilotLongitudinalControl (CP self).

(** ** Stage lemmas *)

Ltac break_if :=
  match goal with
  | |- context [if ?c then _ else _] => destruct c eqn:?
  end.

Ltac stage_cases := repeat break_if; cbn [fst snd app].

(** Every stage only appends to the list it is given. *)
Lemma door_auto_lock_app self CS cs :
  door_auto_lock self CS cs
  = (fst (door_auto_lock self CS []), cs ++ snd (door_auto_lock self CS [])).
Proof.
  unfold door_auto_lock. stage_cases;
    rewrite ?app_nil_r; reflexivity.
Qed.

Lemma steer_msgs_app self CC CS a r cs :
  steer_msgs self CC CS a r cs = cs ++ steer_msgs self CC CS a r [].
Proof.
  unfold steer_msgs. stage_cases; rewrite <- ?app_assoc; reflexivity.
Qed.

Lemma long_msgs_app self CC CS cs :
  long_msgs self CC CS cs
  = (fst (long_msgs self CC CS []), cs ++ snd (long_msgs self CC CS [])).
Proof.
  unfold long_msgs. stage_cases; rewrite ?app_nil_r; reflexivity.
Qed.

Lemma gas_msgs_app self CC CS cs :
  gas_msgs self CC CS cs
  = (fst (gas_msgs self CC CS []), cs ++ snd (gas_msgs self CC CS [])).
Proof.
  unfold gas_msgs. stage_cases; rewrite ?app_nil_r; reflexivity.
Qed.

Lemma hud_ui_app self CC CS cs :
  hud_ui self CC CS cs
  = (fst (hud_ui self CC CS []), cs ++ snd (hud_ui self CC CS [])).
Proof.
  unfold hud_ui. stage_cases;
    rewrite <- ?app_assoc, ?app_nil_r; reflexivity.
Qed.

Lemma static_msgs_app self rows cs :
  static_msgs self rows cs = cs ++ static_msgs self rows [].
Proof.
  revert cs. induction rows as [|[[[[addr cars] bus] fr_step] vl] rows IH];
    intros cs; cbn [static_msgs].
  - now rewrite app_nil_r.
  - break_if; cbn [app].
    + rewrite (IH (cs ++ _)), (IH [_]), <- app_assoc. reflexivity.
    + apply IH.
Qed.

(** The cycle, stage by stage: the intermediate controller states and what
    each stage sent. *)
Lemma update_stages self CC CS :
  exists s1 m1 s2 a1 r1 s3 a2 r2 s5 m5 s6 m6 s7 m7,
    door_auto_lock self CS [] = (s1, m1)
    /\ steer_torque s1 CC CS = (s2, a1, r1)
    /\ steer_angle s2 CC CS a1 r1 = (s3, a2, r2)
    /\ long_msgs (standstill (set_last_steer s3 a2) CS) CC CS [] = (s5, m5)
    /\ gas_msgs s5 CC CS [] = (s6, m6)
    /\ hud_ui s6 CC CS [] = (s7, m7)
    /\ update self CC CS
       = (set_frame s7 (frame s7 + 1),
          (new_actuators s7 CC a2,
           m1 ++ steer_msgs (set_last_steer s3 a2) CC CS a2 r2 []
           ++ m5 ++ m6 ++ m7 ++ static_msgs s7 STATIC_DSU_MSGS [])).
Proof.
  unfold update.
  destruct (door_auto_lock self CS []) as [s1 m1] eqn:E1.
  destruct (steer_torque s1 CC CS) as [[s2 a1] r1] eqn:E2.
  destruct (steer_angle s2 CC CS a1 r1) as [[s3 a2] r2] eqn:E3.
  rewrite (steer_msgs_app _ _ _ _ _ m1).
  rewrite long_msgs_app.
  destruct (long_msgs (standstill (set_last_steer s3 a2) CS) CC CS [])
    as [s5 m5] eqn:E5.
  cbn [fst snd]. rewrite gas_msgs_app.
  destruct (gas_msgs s5 CC CS []) as [s6 m6] eqn:E6.
  cbn [fst snd]. rewrite hud_ui_app.
  destruct (hud_ui s6 CC CS []) as [s7 m7] eqn:E7.
  cbn [fst snd]. rewrite static_msgs_app.
  exists s1, m1, s2, a1, r1, s3, a2, r2, s5, m5, s6, m6, s7, m7.
  repeat split; try assumption.
  rewrite <- !app_assoc. reflexivity.
Qed.

(** Projections of the controller through the assignments. *)
Tactic Notation "self_simpl" :=
  cbn [CP params frame last_steer last_angle alert_active last_standstill
       standstill_req steer_rate_counter gas accel
       dp_toyota_auto_lock_gear_prev dp_toyota_auto_lock_once
       dp_toyota_auto_lock dp_toyota_auto_unlock dp_toyota_sng
       set_frame set_last_steer set_last_angle set_alert_active
       set_last_standstill set_standstill_req set_steer_rate_counter set_gas
       set_accel set_dp_toyota_auto_lock_gear_prev
       set_dp_toyota_auto_lock_once fst snd].

Tactic Notation "self_simpl" "in" hyp(H) :=
  cbn [CP params frame last_steer last_angle alert_active last_standstill
       standstill_req steer_rate_counter gas accel
       dp_toyota_auto_lock_gear_prev dp_toyota_auto_lock_once
       dp_toyota_auto_lock dp_toyota_auto_unlock dp_toyota_sng
       set_frame set_last_steer set_last_angle set_alert_active
       set_last_standstill set_standstill_req set_steer_rate_counter set_gas
       set_accel set_dp_toyota_auto_lock_gear_prev
       set_dp_toyota_auto_lock_once fst snd] in H.

Ltac stage_shape H :=
  revert H;
  match goal with
  | |- context [?f ?self] =>
      is_var self;
      match type of self with t => destruct self end
  end;
  repeat break_if; intros H; inversion H; reflexivity.

(** Which fields each stage assigns. *)
Lemma door_auto_lock_shape self CS cs s m :
  door_auto_lock self CS cs = (s, m) ->
  s = set_dp_toyota_auto_lock_gear_prev
        (set_dp_toyota_auto_lock_once self (dp_toyota_auto_lock_once s))
        (dp_toyota_auto_lock_gear_prev s).
Proof. unfold door_auto_lock. intros H. stage_shape H. Qed.

Lemma steer_torque_shape self CC CS s a r :
  steer_torque self CC CS = (s, a, r) ->
  s = set_steer_rate_counter self (steer_rate_counter s).
Proof. unfold steer_torque. intros H. stage_shape H. Qed.

Lemma steer_angle_shape self CC CS a r s a' r' :
  steer_angle self CC CS a r = (s, a', r') ->
  s = set_last_angle self (last_angle s).
Proof. unfold steer_angle. intros H. stage_shape H. Qed.

Lemma standstill_shape self CS :
  standstill self CS
  = set_last_standstill
      (set_standstill_req self (standstill_req (standstill self CS)))
      (CarState.standstill CS).
Proof. unfold standstill. destruct self. repeat break_if; reflexivity. Qed.

Lemma long_msgs_shape self CC CS cs s m :
  long_msgs self CC CS cs = (s, m) -> s = set_accel self (accel s).
Proof. unfold long_msgs. intros H. stage_shape H. Qed.

Lemma gas_msgs_shape self CC CS cs s m :
  gas_msgs self CC CS cs = (s, m) -> s = set_gas self (gas s).
Proof. unfold gas_msgs. intros H. stage_shape H. Qed.

Lemma hud_ui_shape self CC CS cs s m :
  hud_ui self CC CS cs = (s, m) ->
  s = set_alert_active self (alert_active s).
Proof. unfold hud_ui. intros H. stage_shape H. Qed.

Ltac update_cases self CC CS :=
  let s1 := fresh "s1" in let m1 := fresh "m1" in
  let s2 := fresh "s2" in let a1 := fresh "a1" in let r1 := fresh "r1" in
  let s3 := fresh "s3" in let a2 := fresh "a2" in let r2 := fresh "r2" in
  let s5 := fresh "s5" in let m5 := fresh "m5" in
  let s6 := fresh "s6" in let m6 := fresh "m6" in
  let s7 := fresh "s7" in let m7 := fresh "m7" in
  let E1 := fresh "E1" in let E2 := fresh "E2" in let E3 := fresh "E3" in
  let E5 := fresh "E5" in let E6 := fresh "E6" in let E7 := fresh "E7" in
  let EU := fresh "EU" in
  let S1 := fresh "S1" in let S2 := fresh "S2" in let S3 := fresh "S3" in
  let S5 := fresh "S5" in let S6 := fresh "S6" in let S7 := fresh "S7" in
  destruct (update_stages self CC CS)
    as (s1 & m1 & s2 & a1 & r1 & s3 & a2 & r2 & s5 & m5 & s6 & m6 & s7 & m7
        & E1 & E2 & E3 & E5 & E6 & E7 & EU);
  pose proof (door_auto_lock_shape _ _ _ _ _ E1) as S1;
  pose proof (steer_torque_shape _ _ _ _ _ _ E2) as S2;
  pose proof (steer_angle_shape _ _ _ _ _ _ _ _ E3) as S3;
  pose proof (long_msgs_shape _ _ _ _ _ _ E5) as S5;
  pose proof (gas_msgs_shape _ _ _ _ _ _ E6) as S6;
  pose proof (hud_ui_shape _ _ _ _ _ _ E7) as S7;
  rewrite EU in *.

(** *** Steer torque *)

Lemma steer_torque_spec self CC CS s a r :
  steer_torque self CC CS = (s, a, r) ->
  steer_rate_counter s
  = (if steer_rate_high CC CS
     then if steer_rate_counter self + 1 >? MAX_STEER_RATE_FRAMES
          then 0 else steer_rate_counter self + 1
     else 0)
  /\ r = (if negb (lat_active CC CS) then 0
          else if steer_rate_high CC CS
                  && (steer_rate_counter self + 1 >? MAX_STEER_RATE_FRAMES)
          then 0 else 1)
  /\ (lat_active CC CS = false -> a = 0).
Proof.
  unfold steer_torque, steer_rate_high.
  destruct (lat_active CC CS); cbn [andb negb];
    [destruct (Qle_bool _ _); self_simpl;
     [destruct (_ >? _) eqn:G|cbn [Z.gtb Z.compare MAX_STEER_RATE_FRAMES]]|];
    intros H; inversion H; subst; self_simpl; repeat split;
    try reflexivity; try discriminate; auto.
Qed.

Lemma steer_angle_spec self CC CS a r s a' r' :
  steer_angle self CC CS a r = (s, a', r') ->
  (a', r')
  = if SteerControlType_eqb (CarParams.steerControlType (CP self)) angle
    then (0, 0) else (a, r).
Proof.
  unfold steer_angle. break_if; intros H; inversion H; reflexivity.
Qed.

Lemma steer_msgs_spec self CC CS a r :
  exists lta,
    steer_msgs self CC CS a r [] = create_steer_command a r :: lta
    /\ all_kind KLta lta /\ (List.length lta <= 1)%nat
    /\ lta_angles lta
       = (if (frame self mod 2 =? 0)
             && car_in (CarParams.carFingerprint (CP self)) TSS2_CAR
          then [if lat_active CC CS
                   && SteerControlType_eqb
                        (CarParams.steerControlType (CP self)) angle
                then last_angle self else 0%Q]
          else []).
Proof.
  unfold steer_msgs. break_if; cbn [app].
  - eexists; split; [reflexivity|]. repeat split; repeat constructor.
  - exists []. repeat split; repeat constructor.
Qed.

(** *** What each stage sends *)

Lemma flat_map_all_kind {X} (f : CanMsg -> list X) K l :
  (forall m, kind m = K -> f m = []) -> all_kind K l -> flat_map f l = [].
Proof.
  intros Hf Hl. induction Hl as [|m l Hm _ IH]; cbn; [reflexivity|].
  now rewrite (Hf m Hm), IH.
Qed.

Lemma filter_all_kind (p : CanMsg -> bool) K l :
  (forall m, kind m = K -> p m = false) -> all_kind K l -> filter p l = [].
Proof.
  intros Hp Hl. induction Hl as [|m l Hm _ IH]; cbn; [reflexivity|].
  now rewrite (Hp m Hm), IH.
Qed.

Lemma all_kind_app K l l' :
  all_kind K l -> all_kind K l' -> all_kind K (l ++ l').
Proof. intros H H'. apply Forall_app. now split. Qed.

Lemma door_cmds_prefix l a r rest :
  all_kind KCan l -> door_cmds (l ++ create_steer_command a r :: rest) = l.
Proof.
  intros Hl. induction Hl as [|m l Hm _ IH]; cbn; [reflexivity|].
  destruct m; try discriminate. cbn. now rewrite IH.
Qed.

Lemma door_auto_lock_kind self CS s m :
  door_auto_lock self CS [] = (s, m) ->
  all_kind KCan m /\ Forall (fun c => is_door_command c = true) m
  /\ (List.length m <= 1)%nat.
Proof.
  unfold door_auto_lock. repeat break_if; intros H; inversion H; subst;
    cbn [app List.length]; repeat split; repeat constructor.
Qed.

Lemma long_msgs_kind self CC CS s m :
  long_msgs self CC CS [] = (s, m) ->
  all_kind KLong m /\ (List.length m <= 1)%nat.
Proof.
  unfold long_msgs. repeat break_if; intros H; inversion H; subst;
    cbn [app List.length]; repeat split; repeat constructor.
Qed.

Lemma gas_msgs_kind self CC CS s m :
  gas_msgs self CC CS [] = (s, m) ->
  all_kind KGas m /\ (List.length m <= 1)%nat.
Proof.
  unfold gas_msgs. repeat break_if; intros H; inversion H; subst;
    cbn [app List.length]; repeat split; repeat constructor.
Qed.

Lemma hud_ui_kind self CC CS s m :
  hud_ui self CC CS [] = (s, m) ->
  exists ui fcws,
    m = ui ++ fcws /\ all_kind KUi ui /\ all_kind KFcw fcws
    /\ (List.length ui <= 1)%nat /\ (List.length fcws <= 1)%nat.
Proof.
  unfold hud_ui. repeat break_if; intros H; inversion H; subst;
    cbn [app];
    match goal with
    | |- exists _ _, [?u; ?f] = _ /\ _ => exists [u], [f]
    | |- exists _ _, [?u] = _ /\ _ =>
        first [ exists [u], []; repeat split; repeat constructor; fail
              | exists [], [u] ]
    | |- exists _ _, [] = _ /\ _ => exists [], []
    end; repeat split; repeat constructor.
Qed.

Lemma static_msgs_kind self rows :
  all_kind KCan (static_msgs self rows [])
  /\ Forall (is_static_msg rows) (static_msgs self rows []).
Proof.
  induction rows as [|[[[[addr cars] bus] fr_step] vl] rows [IHk IHs]];
    cbn [static_msgs].
  - split; constructor.
  - assert (Hin : Forall
                    (is_static_msg ((addr, cars, bus, fr_step, vl) :: rows))
                    (static_msgs self rows [])).
    { eapply Forall_impl; [|exact IHs].
      intros m (a & c & b & f & v & Hi & ->).
      exists a, c, b, f, v. split; [now right|reflexivity]. }
    break_if; cbn [app]; [|now split].
    rewrite static_msgs_app. split.
    + apply all_kind_app; [repeat constructor|assumption].
    + apply Forall_app. split; [|assumption].
      constructor; [|constructor].
      exists addr, cars, bus, fr_step, vl. split; [now left|reflexivity].
Qed.

(** A field a stage does not assign keeps its value: rewrite it back to the
    state the cycle started from. *)
Ltac chase_field f :=
  repeat match goal with
    | S : ?s = _ |- context [f ?s] =>
        is_var s; rewrite (f_equal f S); self_simpl;
        lazymatch goal with
        | |- context [f s] => fail
        | _ => idtac
        end
    | |- context [f (standstill ?x ?cs)] =>
        rewrite (f_equal f (standstill_shape x cs)); self_simpl;
        lazymatch goal with
        | |- context [f (standstill x cs)] => fail
        | _ => idtac
        end
    end.

Lemma run_cons self CC CS inputs :
  run self ((CC, CS) :: inputs)
  = (fst (run (fst (update self CC CS)) inputs),
     snd (update self CC CS) :: snd (run (fst (update self CC CS)) inputs)).
Proof.
  cbn [run]. destruct (update self CC CS) as [s out].
  cbn [fst snd]. destruct (run s inputs). reflexivity.
Qed.

(** What a cycle leaves untouched: the configuration. *)
Lemma update_config self CC CS :
  let self' := fst (update self CC CS) in
  CP self' = CP self /\ params self' = params self
  /\ dp_toyota_auto_lock self' = dp_toyota_auto_lock self
  /\ dp_toyota_auto_unlock self' = dp_toyota_auto_unlock self
  /\ dp_toyota_sng self' = dp_toyota_sng self.
Proof.
  update_cases self CC CS. self_simpl.
  repeat split;
    [chase_field CP|chase_field params|chase_field dp_toyota_auto_lock
    |chase_field dp_toyota_auto_unlock|chase_field dp_toyota_sng];
    reflexivity.
Qed.

Lemma update_frame self CC CS :
  frame (fst (update self CC CS)) = frame self + 1.
Proof.
  update_cases self CC CS. self_simpl. chase_field frame. reflexivity.
Qed.

Lemma update_steer_rate_counter self CC CS :
  steer_rate_counter (fst (update self CC CS))
  = (if steer_rate_high CC CS
     then if steer_rate_counter self + 1 >? MAX_STEER_RATE_FRAMES
          then 0 else steer_rate_counter self + 1
     else 0).
Proof.
  update_cases self CC CS. self_simpl.
  destruct (steer_torque_spec _ _ _ _ _ _ E2) as (Hc & _ & _).
  rewrite (f_equal steer_rate_counter S1) in Hc. self_simpl in Hc.
  rewrite <- Hc. clear Hc S2.
  chase_field steer_rate_counter. reflexivity.
Qed.

(** The messages of a cycle, stage by stage, with the encoder call behind
    each part. *)
Lemma update_can_sends self CC CS :
  exists s1 door s2 a1 r1 s3 a2 r2 lta s5 long s6 gasm s7 ui fcws,
    door_auto_lock self CS [] = (s1, door)
    /\ steer_torque s1 CC CS = (s2, a1, r1)
    /\ steer_angle s2 CC CS a1 r1 = (s3, a2, r2)
    /\ steer_msgs (set_last_steer s3 a2) CC CS a2 r2 []
       = create_steer_command a2 r2 :: lta
    /\ long_msgs (standstill (set_last_steer s3 a2) CS) CC CS [] = (s5, long)
    /\ gas_msgs s5 CC CS [] = (s6, gasm)
    /\ hud_ui s6 CC CS [] = (s7, ui ++ fcws)
    /\ snd (snd (update self CC CS))
       = door ++ create_steer_command a2 r2 :: lta ++ long ++ gasm ++ ui
         ++ fcws ++ static_msgs s7 STATIC_DSU_MSGS []
    /\ fst (snd (update self CC CS)) = new_actuators s7 CC a2
    /\ fst (update self CC CS) = set_frame s7 (frame s7 + 1)
    /\ (all_kind KCan door /\ Forall (fun c => is_door_command c = true) door
        /\ (List.length door <= 1)%nat)
    /\ (all_kind KLta lta /\ (List.length lta <= 1)%nat)
    /\ (all_kind KLong long /\ (List.length long <= 1)%nat)
    /\ (all_kind KGas gasm /\ (List.length gasm <= 1)%nat)
    /\ (all_kind KUi ui /\ (List.length ui <= 1)%nat)
    /\ (all_kind KFcw fcws /\ (List.length fcws <= 1)%nat)
    /\ all_kind KCan (static_msgs s7 STATIC_DSU_MSGS []).
Proof.
  destruct (update_stages self CC CS)
    as (s1 & m1 & s2 & a1 & r1 & s3 & a2 & r2 & s5 & m5 & s6 & m6 & s7 & m7
        & E1 & E2 & E3 & E5 & E6 & E7 & EU).
  destruct (steer_msgs_spec (set_last_steer s3 a2) CC CS a2 r2)
    as (lta & EL & KL & LL & _).
  destruct (hud_ui_kind _ _ _ _ _ E7) as (ui & fcws & -> & KU & KF & LU & LF).
  exists s1, m1, s2, a1, r1, s3, a2, r2, lta, s5, m5, s6, m6, s7, ui, fcws.
  rewrite EU, EL. cbn [fst snd]. rewrite <- !app_assoc. cbn [app].
  repeat match goal with |- _ /\ _ => split end;
    try assumption; try reflexivity;
    try (now apply (door_auto_lock_kind _ _ _ _ E1));
    try (now apply (long_msgs_kind _ _ _ _ _ E5));
    try (now apply (gas_msgs_kind _ _ _ _ _ E6)).
  apply static_msgs_kind.
Qed.

Lemma flat_map_can_sends {X} (f : CanMsg -> list X)
    door st lta long gasm ui fcws static :
  flat_map f (door ++ st :: lta ++ long ++ gasm ++ ui ++ fcws ++ static)
  = flat_map f door ++ f st ++ flat_map f lta ++ flat_map f long
    ++ flat_map f gasm ++ flat_map f ui ++ flat_map f fcws
    ++ flat_map f static.
Proof.
  rewrite flat_map_app. cbn [flat_map]. now rewrite !flat_map_app.
Qed.

Lemma filter_can_sends (p : CanMsg -> bool)
    door st lta long gasm ui fcws static :
  filter p (door ++ st :: lta ++ long ++ gasm ++ ui ++ fcws ++ static)
  = filter p door ++ filter p [st] ++ filter p lta ++ filter p long
    ++ filter p gasm ++ filter p ui ++ filter p fcws ++ filter p static.
Proof.
  change (st :: lta ++ long ++ gasm ++ ui ++ fcws ++ static)
    with ([st] ++ lta ++ long ++ gasm ++ ui ++ fcws ++ static).
  now rewrite !filter_app.
Qed.

(** Parts of the list that hold no message of the kind looked for. *)
Ltac drop_kinds :=
  repeat match goal with
    | K : all_kind ?k ?l |- context [flat_map ?f ?l] =>
        rewrite (flat_map_all_kind f k l
                   ltac:(intros []; cbn; (reflexivity || discriminate)) K)
    | K : all_kind ?k ?l |- context [filter ?p ?l] =>
        rewrite (filter_all_kind p k l
                   ltac:(intros []; cbn; (reflexivity || discriminate)) K)
    end;
  cbn [app].

Lemma update_steer_cmds self CC CS :
  exists a,
    steer_cmds (snd (snd (update self CC CS)))
    = [(a,
        if SteerControlType_eqb (CarParams.steerControlType (CP self)) angle
        then 0
        else if negb (lat_active CC CS) then 0
        else if steer_rate_high CC CS
                && (steer_rate_counter self + 1 >? MAX_STEER_RATE_FRAMES)
        then 0 else 1)]
    /\ (lat_active CC CS = false -> a = 0)
    /\ last_steer (fst (update self CC CS)) = a
    /\ Actuators.steerOutputCan (fst (snd (update self CC CS))) = inject_Z a.
Proof.
  destruct (update_can_sends self CC CS)
    as (s1 & door & s2 & a1 & r1 & s3 & a2 & r2 & lta & s5 & long & s6 & gasm
        & s7 & ui & fcws & E1 & E2 & E3 & EL & E5 & E6 & E7 & EM & EA & EF
        & (KD & _) & (KL & _) & (KG & _) & (KP & _) & (KU & _) & (KF & _)
        & KS).
  exists a2. rewrite EM, EA. unfold steer_cmds.
  rewrite flat_map_can_sends. drop_kinds.
  pose proof (steer_angle_spec _ _ _ _ _ _ _ _ E3) as HA.
  destruct (steer_torque_spec _ _ _ _ _ _ E2) as (_ & Hr & Ha).
  rewrite (f_equal CP (steer_torque_shape _ _ _ _ _ _ E2)) in HA.
  self_simpl in HA.
  rewrite (f_equal CP (door_auto_lock_shape _ _ _ _ _ E1)) in HA.
  rewrite (f_equal steer_rate_counter (door_auto_lock_shape _ _ _ _ _ E1))
    in Hr.
  self_simpl in HA. self_simpl in Hr.
  repeat split.
  - f_equal. destruct (SteerControlType_eqb _ _); inversion HA; subst;
      reflexivity.
  - intros Hl. destruct (SteerControlType_eqb _ _); inversion HA; subst;
      auto.
  - pose proof (long_msgs_shape _ _ _ _ _ _ E5) as S5.
    pose proof (gas_msgs_shape _ _ _ _ _ _ E6) as S6.
    pose proof (hud_ui_shape _ _ _ _ _ _ E7) as S7.
    rewrite EF. self_simpl. chase_field last_steer. reflexivity.
Qed.

Lemma forallb_firstn {X} (p : X -> bool) l : forall k,
  forallb p l = true -> forallb p (firstn k l) = true.
Proof.
  induction l as [|x l IH]; intros [|k] H; cbn in *; try reflexivity.
  apply andb_prop in H as [-> H]. cbn. now apply IH.
Qed.

(** A run of cycles with the steering rate high counts them, as long as the
    frame threshold is not passed. *)
Lemma run_steer_rate_counter inputs : forall self,
  forallb (fun i => steer_rate_high (fst i) (snd i)) inputs = true ->
  steer_rate_counter self + Z.of_nat (List.length inputs)
  <= MAX_STEER_RATE_FRAMES ->
  steer_rate_counter (fst (run self inputs))
  = steer_rate_counter self + Z.of_nat (List.length inputs).
Proof.
  induction inputs as [|[CC CS] inputs IH]; intros self Hall Hlen.
  - cbn. lia.
  - cbn [forallb fst snd] in Hall. apply andb_prop in Hall as [Hh Hall].
    cbn [List.length] in Hlen. rewrite Nat2Z.inj_succ in Hlen.
    rewrite run_cons. cbn [fst].
    assert (Hc : steer_rate_counter (fst (update self CC CS))
                 = steer_rate_counter self + 1).
    { rewrite update_steer_rate_counter, Hh.
      destruct (_ >? _) eqn:G; [|reflexivity].
      apply Z.gtb_lt in G. lia. }
    rewrite IH; [|assumption|lia].
    cbn [List.length]. rewrite Nat2Z.inj_succ. lia.
Qed.

(** ** Properties of a cycle *)

(** C1. Steer-rate fault avoidance. In a cycle where lateral control is
    active and the steering rate is at or above 100 deg/s the counter is
    incremented, and reset to 0 with the request flag off once it passes 18;
    in every other cycle it is 0. After 18 consecutive such cycles from a
    counter at 0 the counter is 18 (k after the first k of them), and the
    19th sends the steer command with request flag 0 and leaves the counter
    at 0. *)
Theorem steer_rate_fault_avoidance self inputs CC CS :
  steer_rate_counter self = 0 ->
  List.length inputs = 18%nat ->
  forallb (fun i => steer_rate_high (fst i) (snd i)) inputs = true ->
  steer_rate_high CC CS = true ->
  (forall s CC' CS',
      steer_rate_counter (fst (update s CC' CS'))
      = if steer_rate_high CC' CS'
        then if steer_rate_counter s + 1 >? 18 then 0
             else steer_rate_counter s + 1
        else 0)
  /\ (forall k, (k <= 18)%nat ->
                 steer_rate_counter (fst (run self (firstn k inputs)))
                 = Z.of_nat k)
  /\ steer_rate_counter (fst (run self inputs)) = 18
  /\ (exists a,
         steer_cmds (snd (snd (update (fst (run self inputs)) CC CS)))
         = [(a, 0)])
  /\ steer_rate_counter (fst (update (fst (run self inputs)) CC CS)) = 0.
Proof.
  intros H0 Hlen Hall Hh.
  assert (H18 : steer_rate_counter (fst (run self inputs)) = 18).
  { rewrite run_steer_rate_counter; rewrite ?H0, ?Hlen; trivial.
    unfold MAX_STEER_RATE_FRAMES. lia. }
  split; [intros; apply update_steer_rate_counter|].
  split.
  { intros k Hk.
    assert (Hf : List.length (firstn k inputs) = k)
      by (rewrite length_firstn; lia).
    rewrite run_steer_rate_counter; rewrite ?H0, ?Hf;
      [reflexivity|now apply forallb_firstn
      |unfold MAX_STEER_RATE_FRAMES; lia]. }
  split; [exact H18|]. split.
  - destruct (update_steer_cmds (fst (run self inputs)) CC CS)
      as (a & Hs & _).
    exists a. rewrite Hs, Hh, H18. cbn [andb].
    unfold steer_rate_high in Hh. apply andb_prop in Hh as [-> _].
    cbn. now destruct (SteerControlType_eqb _ _).
  - rewrite update_steer_rate_counter, Hh, H18. reflexivity.
Qed.

(** C3, amended. Lateral control is inactive exactly when the caller does not
    request it or the driver torque magnitude is at or above 500 (line 65
    tests [abs(torque) < 500]). Whenever lateral control is inactive the
    steer command of the cycle carries torque 0 and request flag 0, and the
    stored and echoed torque are 0. *)
Theorem user_override_deactivation self CC CS :
  (lat_active CC CS = false
   <-> CarControl.latActive CC = false
       \/ (500 <= Qabs (CarState.steeringTorque CS))%Q)
  /\ (lat_active CC CS = false ->
      steer_cmds (snd (snd (update self CC CS))) = [(0, 0)]
      /\ last_steer (fst (update self CC CS)) = 0
      /\ Actuators.steerOutputCan (fst (snd (update self CC CS)))
         = inject_Z 0).
Proof.
  split.
  - unfold lat_active, Qlt_bool, MAX_USER_TORQUE.
    rewrite andb_false_iff, negb_false_iff, Qle_bool_iff. reflexivity.
  - intros Hl.
    destruct (update_steer_cmds self CC CS) as (a & Hs & Ha & Hls & Ho).
    rewrite Hs, Hls, Ho, (Ha Hl), Hl. cbn [negb].
    repeat split. now destruct (SteerControlType_eqb _ _).
Qed.

Lemma all_kind_Forall K (p : CanMsg -> bool) l :
  (forall m, kind m = K -> p m = true) ->
  all_kind K l -> Forall (fun m => p m = true) l.
Proof. intros Hp. apply Forall_impl. exact Hp. Qed.

(** C9. The list a cycle returns is, in this order: the door commands, the
    steer torque command, the LTA command, the accel / cancel message, the
    gas interceptor command, the UI alert message, the forward-collision
    message, the static messages; every part but the steer command (exactly
    one) and the static messages holds at most one message. *)
Theorem emission_order self CC CS :
  exists door a r lta long gasm ui fcws static,
    snd (snd (update self CC CS))
    = door ++ [create_steer_command a r] ++ lta ++ long ++ gasm ++ ui
      ++ fcws ++ static
    /\ Forall (fun m => is_door_command m = true) door
    /\ Forall (fun m => is_lta_steer_command m = true) lta
    /\ Forall (fun m => is_long_command m = true) long
    /\ Forall (fun m => is_gas_interceptor_command m = true) gasm
    /\ Forall (fun m => is_ui_command m = true) ui
    /\ Forall (fun m => is_fcw_command m = true) fcws
    /\ Forall (is_static_msg STATIC_DSU_MSGS) static
    /\ (List.length door <= 1 /\ List.length lta <= 1
        /\ List.length long <= 1 /\ List.length gasm <= 1
        /\ List.length ui <= 1 /\ List.length fcws <= 1)%nat.
Proof.
  destruct (update_can_sends self CC CS)
    as (s1 & door & s2 & a1 & r1 & s3 & a2 & r2 & lta & s5 & long & s6 & gasm
        & s7 & ui & fcws & E1 & E2 & E3 & EL & E5 & E6 & E7 & EM & EA & EF
        & (KD & FD & LD) & (KL & LL) & (KG & LG) & (KP & LP) & (KU & LU)
        & (KF & LF) & KS).
  exists door, a2, r2, lta, long, gasm, ui, fcws,
    (static_msgs s7 STATIC_DSU_MSGS []).
  split; [exact EM|]. split; [exact FD|].
  split; [revert KL; apply all_kind_Forall; now intros []|].
  split; [revert KG; apply all_kind_Forall; now intros []|].
  split; [revert KP; apply all_kind_Forall; now intros []|].
  split; [revert KU; apply all_kind_Forall; now intros []|].
  split; [revert KF; apply all_kind_Forall; now intros []|].
  split; [apply static_msgs_kind|].
  repeat split; assumption.
Qed.

Ltac shapes E1 E2 E3 E5 E6 E7 :=
  pose proof (door_auto_lock_shape _ _ _ _ _ E1);
  pose proof (steer_torque_shape _ _ _ _ _ _ E2);
  pose proof (steer_angle_shape _ _ _ _ _ _ _ _ E3);
  pose proof (long_msgs_shape _ _ _ _ _ _ E5);
  pose proof (gas_msgs_shape _ _ _ _ _ _ E6);
  pose proof (hud_ui_shape _ _ _ _ _ _ E7).

Ltac open_update self CC CS :=
  let s1 := fresh "s1" in let door := fresh "door" in
  let s2 := fresh "s2" in let a1 := fresh "a1" in let r1 := fresh "r1" in
  let s3 := fresh "s3" in let a2 := fresh "a2" in let r2 := fresh "r2" in
  let lta := fresh "lta" in let s5 := fresh "s5" in
  let long := fresh "long" in let s6 := fresh "s6" in
  let gasm := fresh "gasm" in let s7 := fresh "s7" in
  let ui := fresh "ui" in let fcws := fresh "fcws" in
  let E1 := fresh "E1" in let E2 := fresh "E2" in let E3 := fresh "E3" in
  let EL := fresh "EL" in let E5 := fresh "E5" in let E6 := fresh "E6" in
  let E7 := fresh "E7" in let EM := fresh "EM" in let EA := fresh "EA" in
  let EF := fresh "EF" in
  let KD := fresh "KD" in let KL := fresh "KL" in let KG := fresh "KG" in
  let KP := fresh "KP" in let KU := fresh "KU" in let KF := fresh "KF" in
  let KS := fresh "KS" in
  destruct (update_can_sends self CC CS)
    as (s1 & door & s2 & a1 & r1 & s3 & a2 & r2 & lta & s5 & long & s6 & gasm
        & s7 & ui & fcws & E1 & E2 & E3 & EL & E5 & E6 & E7 & EM & EA & EF
        & (KD & _) & (KL & _) & (KG & _) & (KP & _) & (KU & _) & (KF & _)
        & KS);
  shapes E1 E2 E3 E5 E6 E7.

(** *** Gas interceptor *)

Lemma Qle_bool_false a b : Qle_bool a b = false -> (b < a)%Q.
Proof.
  intros H. apply Qnot_le_lt. intros Hle.
  apply Qle_bool_iff in Hle. congruence.
Qed.

Lemma clip_bounds x lo hi : (lo <= hi)%Q -> (lo <= clip x lo hi <= hi)%Q.
Proof.
  intros Hlh. unfold clip, Qlt_bool.
  destruct (Qle_bool hi x) eqn:Hx; cbn [negb].
  - destruct (Qle_bool hi lo) eqn:Hl; cbn [negb].
    + split; [apply Qle_refl|assumption].
    + split; [assumption|apply Qle_refl].
  - apply Qle_bool_false in Hx.
    destruct (Qle_bool x lo) eqn:Hl; cbn [negb].
    + split; [apply Qle_refl|assumption].
    + apply Qle_bool_false in Hl. split; apply Qlt_le_weak; assumption.
Qed.

Lemma gas_msgs_spec self CC CS s m :
  gas_msgs self CC CS [] = (s, m) ->
  gas_cmds m
  = if (frame self mod 2 =? 0)
       && CarParams.enableGasInterceptor (CP self)
       && CarParams.openpilotLongitudinalControl (CP self)
    then [interceptor_gas_cmd self CC CS] else [].
Proof.
  unfold gas_msgs. break_if; intros H; inversion H; reflexivity.
Qed.

Lemma update_gas_cmds self CC CS :
  gas_cmds (snd (snd (update self CC CS)))
  = if (frame self mod 2 =? 0)
       && CarParams.enableGasInterceptor (CP self)
       && CarParams.openpilotLongitudinalControl (CP self)
    then [interceptor_gas_cmd self CC CS] else [].
Proof.
  open_update self CC CS. rewrite EM. unfold gas_cmds.
  rewrite flat_map_can_sends. drop_kinds. rewrite app_nil_r.
  fold (gas_cmds gasm). rewrite (gas_msgs_spec _ _ _ _ _ E6).
  assert (HC : CP s5 = CP self) by (chase_field CP; reflexivity).
  assert (HF : frame s5 = frame self) by (chase_field frame; reflexivity).
  unfold interceptor_gas_cmd. rewrite HC, HF. reflexivity.
Qed.

(** C2. The pedal command of a cycle is exactly 0 when longitudinal control
    is inactive or the car has no gas interceptor; otherwise it is the
    speed-interpolated scale of the car's class times (desired acceleration
    plus the speed-interpolated offset), clamped to [0, 0.5]. It lies in
    [0, 0.5], and it is the value of the gas interceptor command the cycle
    sends. *)
Theorem pedal_command_zero_guarantee self CC CS :
  let vEgo := CarState.vEgo CS in
  let fingerprint := CarParams.carFingerprint (CP self) in
  let xp := [0.0; MIN_ACC_SPEED; MIN_ACC_SPEED + PEDAL_TRANSITION]%Q in
  let scale :=
    interp vEgo xp
      (if car_in fingerprint [RAV4; RAV4H; HIGHLANDER; HIGHLANDERH]
       then [0.15; 0.3; 0.0]%Q
       else if car_in fingerprint [COROLLA] then [0.3; 0.4; 0.0]%Q
       else [0.4; 0.5; 0.0]%Q) in
  let offset := interp vEgo [0.0; 2.3; MIN_ACC_SPEED + PEDAL_TRANSITION]%Q
                  [-0.4; 0.0; 0.2]%Q in
  interceptor_gas_cmd self CC CS
  = (if negb (CarControl.longActive CC)
        || negb (CarParams.enableGasInterceptor (CP self))
     then 0%Q
     else clip (scale * (Actuators.accel (CarControl.actuators CC) + offset))
            0 0.5)%Q
  /\ (0 <= interceptor_gas_cmd self CC CS <= 0.5)%Q
  /\ Forall (fun g => g = interceptor_gas_cmd self CC CS)
       (gas_cmds (snd (snd (update self CC CS)))).
Proof.
  cbv zeta. split; [|split].
  - unfold interceptor_gas_cmd, PEDAL_SCALE, pedal_offset, MAX_INTERCEPTOR_GAS.
    destruct (CarParams.enableGasInterceptor _), (CarControl.longActive _);
      cbn [andb orb negb]; try reflexivity.
    repeat break_if; reflexivity.
  - unfold interceptor_gas_cmd. break_if.
    + apply clip_bounds. unfold MAX_INTERCEPTOR_GAS. now vm_compute.
    + split; now vm_compute.
  - rewrite update_gas_cmds. break_if; repeat constructor.
Qed.

(** *** Accel / cancel message *)

Lemma filter_all_kind_true (p : CanMsg -> bool) K l :
  (forall m, kind m = K -> p m = true) -> all_kind K l -> filter p l = l.
Proof.
  intros Hp Hl. induction Hl as [|m l Hm _ IH]; cbn; [reflexivity|].
  now rewrite (Hp m Hm), IH.
Qed.

Lemma long_msgs_spec self CC CS s m :
  long_msgs self CC CS [] = (s, m) ->
  List.length m
  = if ((frame self mod 3 =? 0)
        && CarParams.openpilotLongitudinalControl (CP self))
       || pcm_cancel_cmd CC CS
    then 1%nat else 0%nat.
Proof.
  unfold long_msgs. repeat break_if; intros H; inversion H; reflexivity.
Qed.

Lemma update_long_cmds self CC CS :
  List.length (long_cmds (snd (snd (update self CC CS))))
  = if ((frame self mod 3 =? 0)
        && CarParams.openpilotLongitudinalControl (CP self))
       || pcm_cancel_cmd CC CS
    then 1%nat else 0%nat.
Proof.
  open_update self CC CS. rewrite EM. unfold long_cmds.
  rewrite filter_can_sends. drop_kinds. rewrite app_nil_r.
  rewrite (filter_all_kind_true is_long_command KLong long);
    [|now intros []|assumption].
  cbn [filter is_long_command app].
  rewrite (long_msgs_spec _ _ _ _ _ E5).
  assert (HC : CP (standstill (set_last_steer s3 a2) CS) = CP self)
    by (chase_field CP; reflexivity).
  assert (HF : frame (standstill (set_last_steer s3 a2) CS) = frame self)
    by (chase_field frame; reflexivity).
  rewrite HC, HF. reflexivity.
Qed.

(** C4. A cycle appends one accel / cancel message exactly when
    (frame mod 3 = 0 and the car is under openpilot longitudinal control) or
    a cancel is pending, and none otherwise; so a pending cancel is sent in
    its own cycle. With longitudinal control and no pending cancel the
    message is sent at frame 300 and not at frame 301. *)
Theorem long_message_cadence self CC CS :
  CarParams.openpilotLongitudinalControl (CP self) = true ->
  pcm_cancel_cmd CC CS = false ->
  (forall s CC' CS',
      (long_cmds (snd (snd (update s CC' CS'))) <> []
       <-> (frame s mod 3 = 0
            /\ CarParams.openpilotLongitudinalControl (CP s) = true)
           \/ pcm_cancel_cmd CC' CS' = true)
      /\ (pcm_cancel_cmd CC' CS' = true ->
          List.length (long_cmds (snd (snd (update s CC' CS')))) = 1%nat))
  /\ List.length
       (long_cmds (snd (snd (update (set_frame self 300) CC CS)))) = 1%nat
  /\ long_cmds (snd (snd (update (set_frame self 301) CC CS))) = [].
Proof.
  intros Hol Hc. split; [|split].
  - intros s CC' CS'. pose proof (update_long_cmds s CC' CS') as HL.
    split.
    + destruct (long_cmds _) as [|m l].
      * split; [congruence|]. intros [[Hf Ho]|Hp].
        -- apply Z.eqb_eq in Hf. rewrite Hf, Ho in HL. discriminate.
        -- rewrite Hp, orb_true_r in HL. discriminate.
      * split; [|discriminate]. intros _.
        destruct (frame s mod 3 =? 0) eqn:Hf;
          destruct (CarParams.openpilotLongitudinalControl (CP s));
          destruct (pcm_cancel_cmd CC' CS'); cbn in HL;
          try discriminate; auto; left; split; auto;
          now apply Z.eqb_eq.
    + intros Hp. now rewrite HL, Hp, orb_true_r.
  - rewrite update_long_cmds. self_simpl. now rewrite Hol, Hc.
  - pose proof (update_long_cmds (set_frame self 301) CC CS) as HL.
    self_simpl in HL. rewrite Hol, Hc in HL.
    change (301 mod 3 =? 0) with false in HL. cbn in HL.
    now destruct (long_cmds _).
Qed.

(** *** Standstill request *)

Lemma standstill_spec self CS :
  standstill_req (standstill self CS)
  = (CarState.pcm_acc_status CS =? 8)
    && (standstill_entry self CS || standstill_req self).
Proof.
  unfold standstill.
  destruct (standstill_entry self CS), (CarState.pcm_acc_status CS =? 8);
    cbn [negb andb orb]; self_simpl; reflexivity.
Qed.

Lemma update_standstill_req self CC CS :
  standstill_req (fst (update self CC CS))
  = (CarState.pcm_acc_status CS =? 8)
    && (standstill_entry self CS || standstill_req self).
Proof.
  update_cases self CC CS. self_simpl.
  transitivity (standstill_req (standstill (set_last_steer s3 a2) CS)).
  - rewrite (f_equal standstill_req S7). self_simpl.
    rewrite (f_equal standstill_req S6). self_simpl.
    rewrite (f_equal standstill_req S5). self_simpl. reflexivity.
  - rewrite standstill_spec. unfold standstill_entry. self_simpl.
    clear S5 S6 S7.
    chase_field dp_toyota_sng. chase_field last_standstill.
    chase_field CP. chase_field standstill_req. reflexivity.
Qed.

Lemma run_standstill_req inputs : forall self,
  standstill_req self = true ->
  forallb (fun i => CarState.pcm_acc_status (snd i) =? 8) inputs = true ->
  standstill_req (fst (run self inputs)) = true.
Proof.
  induction inputs as [|[CC CS] inputs IH]; intros self Hr Hall.
  - exact Hr.
  - cbn [forallb snd] in Hall. apply andb_prop in Hall as [H8 Hall].
    rewrite run_cons. cbn [fst]. apply IH; [|assumption].
    rewrite update_standstill_req, H8, Hr. cbn. apply orb_true_r.
Qed.

(** C5. When a cycle sets the standstill request on entering standstill
    (request not suppressed, car not a no-stop-timer car or with a gas
    interceptor, status 8), the request stays true after every later cycle
    whose cruise status is 8, whatever the standstill flag does, and is false
    after the first cycle whose status is not 8. *)
Theorem standstill_request_persistence self CC0 CS0 inputs CCn CSn :
  standstill_entry self CS0 = true ->
  CarState.pcm_acc_status CS0 = 8 ->
  forallb (fun i => CarState.pcm_acc_status (snd i) =? 8) inputs = true ->
  CarState.pcm_acc_status CSn <> 8 ->
  let s1 := fst (update self CC0 CS0) in
  standstill_req s1 = true
  /\ (forall k, standstill_req (fst (run s1 (firstn k inputs))) = true)
  /\ standstill_req (fst (update (fst (run s1 inputs)) CCn CSn)) = false.
Proof.
  intros He H8 Hall Hn s1.
  assert (H1 : standstill_req s1 = true).
  { unfold s1. rewrite update_standstill_req, He, H8. reflexivity. }
  split; [exact H1|]. split.
  - intros k. apply run_standstill_req; [exact H1|].
    now apply forallb_firstn.
  - rewrite update_standstill_req.
    apply Z.eqb_neq in Hn. now rewrite Hn.
Qed.

(** *** UI alert *)

Lemma hud_ui_spec self CC CS s m :
  hud_ui self CC CS [] = (s, m) ->
  if CAR_eqb (CarParams.carFingerprint (CP self)) PRIUS_V
  then m = [] /\ alert_active s = alert_active self
  else alert_active s = alert_now CC
       /\ List.length (ui_cmds m)
          = if (frame self mod 20 =? 0)
               || xorb (alert_now CC) (alert_active self)
               || pcm_cancel_cmd CC CS
            then 1%nat else 0%nat.
Proof.
  unfold hud_ui, alert_now.
  destruct (CAR_eqb _ _); cbn [negb].
  - intros H; inversion H; auto.
  - destruct (fcw_alert CC || steer_alert CC),
      (alert_active self) eqn:Ha,
      (pcm_cancel_cmd CC CS); cbn [negb andb orb xorb]; self_simpl;
      destruct (frame self mod 20 =? 0), (frame self mod 100 =? 0),
        (CarParams.enableDsu (CP self));
      cbn [negb andb orb xorb app]; intros H; inversion H; subst;
      self_simpl; rewrite ?Ha; split; reflexivity.
Qed.

Lemma update_ui self CC CS :
  if CAR_eqb (CarParams.carFingerprint (CP self)) PRIUS_V
  then ui_cmds (snd (snd (update self CC CS))) = []
       /\ alert_active (fst (update self CC CS)) = alert_active self
  else alert_active (fst (update self CC CS)) = alert_now CC
       /\ List.length (ui_cmds (snd (snd (update self CC CS))))
          = if (frame self mod 20 =? 0)
               || xorb (alert_now CC) (alert_active self)
               || pcm_cancel_cmd CC CS
            then 1%nat else 0%nat.
Proof.
  open_update self CC CS.
  assert (HC : CP s6 = CP self) by (chase_field CP; reflexivity).
  assert (HF : frame s6 = frame self) by (chase_field frame; reflexivity).
  assert (HA : alert_active s6 = alert_active self)
    by (chase_field alert_active; reflexivity).
  pose proof (hud_ui_spec _ _ _ _ _ E7) as HU.
  rewrite HC, HF, HA in HU.
  assert (HM : ui_cmds (snd (snd (update self CC CS))) = ui_cmds (ui ++ fcws)).
  { rewrite EM. unfold ui_cmds. rewrite filter_can_sends, filter_app.
    drop_kinds. now rewrite !app_nil_r. }
  assert (HS : alert_active (fst (update self CC CS)) = alert_active s7).
  { now rewrite EF. }
  rewrite HM, HS.
  destruct (CAR_eqb _ _); [|exact HU].
  destruct HU as [HU1 HU2]. rewrite HU1. split; [reflexivity|assumption].
Qed.

(** C6, amended. For every car other than the Prius V (line 185 skips the
    stage for it): in a cycle where the alert condition differs from the
    latch, one UI alert message is sent whatever the frame, and the latch
    toggles; after every cycle the latch equals the alert condition of that
    cycle, so a following cycle with the same condition sees no edge; and
    with no edge, no pending cancel and frame mod 20 <> 0 no UI message is
    sent. *)
Theorem ui_alert_edge self CC CS :
  CAR_eqb (CarParams.carFingerprint (CP self)) PRIUS_V = false ->
  let self' := fst (update self CC CS) in
  let can_sends := snd (snd (update self CC CS)) in
  (alert_now CC <> alert_active self ->
   List.length (ui_cmds can_sends) = 1%nat
   /\ alert_active self' = negb (alert_active self))
  /\ alert_active self' = alert_now CC
  /\ (forall CC', alert_now CC' = alert_now CC ->
                  xorb (alert_now CC') (alert_active self') = false)
  /\ (alert_now CC = alert_active self ->
      pcm_cancel_cmd CC CS = false ->
      frame self mod 20 <> 0 ->
      ui_cmds can_sends = []).
Proof.
  intros Hp. cbv zeta. pose proof (update_ui self CC CS) as HU.
  rewrite Hp in HU. destruct HU as [HA HL].
  split; [|split; [exact HA|split]].
  - intros Hd. rewrite HL, HA.
    destruct (alert_now CC), (alert_active self); try congruence;
      cbn; rewrite ?orb_true_r; auto.
  - intros CC' ->. rewrite HA. apply xorb_nilpotent.
  - intros He Hc Hf. apply Z.eqb_neq in Hf.
    rewrite He, Hc, Hf, xorb_nilpotent in HL. cbn in HL.
    now destruct (ui_cmds _).
Qed.

(** *** Door automation *)

(** The door commands of a cycle and the door state it leaves are those of
    the door stage. *)
Lemma update_door self CC CS :
  door_cmds (snd (snd (update self CC CS))) = snd (door_auto_lock self CS [])
  /\ dp_toyota_auto_lock_once (fst (update self CC CS))
     = dp_toyota_auto_lock_once (fst (door_auto_lock self CS []))
  /\ dp_toyota_auto_lock_gear_prev (fst (update self CC CS))
     = dp_toyota_auto_lock_gear_prev (fst (door_auto_lock self CS [])).
Proof.
  open_update self CC CS. rewrite EM, EF, E1. cbn [fst snd].
  split; [now apply door_cmds_prefix|]. self_simpl.
  match goal with S : s1 = _ |- _ => clear S end.
  split.
  - chase_field dp_toyota_auto_lock_once. reflexivity.
  - chase_field dp_toyota_auto_lock_gear_prev. reflexivity.
Qed.

(** One cycle of the door automation with the doors closed. *)
Lemma door_cycle self CC CS :
  CarState.doorOpen CS = false ->
  let gear := CarState.gearShifter CS in
  let to_park :=
    GearShifter_eqb gear park
    && negb (GearShifter_eqb (dp_toyota_auto_lock_gear_prev self) gear) in
  let at_speed :=
    GearShifter_eqb gear drive && negb (dp_toyota_auto_lock_once self)
    && Qle_bool LOCK_AT_SPEED (CarState.vEgo CS) in
  door_cmds (snd (snd (update self CC CS)))
  = (if to_park then if dp_toyota_auto_lock self then [DOOR_UNLOCK] else []
     else if at_speed
          then if dp_toyota_auto_unlock self then [DOOR_LOCK] else []
          else [])
  /\ dp_toyota_auto_lock_once (fst (update self CC CS))
     = (if to_park then false
        else if at_speed then true else dp_toyota_auto_lock_once self)
  /\ dp_toyota_auto_lock_gear_prev (fst (update self CC CS)) = gear.
Proof.
  intros Hd. cbv zeta.
  destruct (update_door self CC CS) as (-> & -> & ->).
  unfold door_auto_lock. rewrite Hd. cbn [negb].
  repeat break_if; self_simpl; repeat split; reflexivity.
Qed.

Lemma run_outputs4 self i1 i2 i3 i4 :
  let s1 := fst (update self (fst i1) (snd i1)) in
  let s2 := fst (update s1 (fst i2) (snd i2)) in
  let s3 := fst (update s2 (fst i3) (snd i3)) in
  snd (run self [i1; i2; i3; i4])
  = [snd (update self (fst i1) (snd i1)); snd (update s1 (fst i2) (snd i2));
     snd (update s2 (fst i3) (snd i3)); snd (update s3 (fst i4) (snd i4))].
Proof.
  destruct i1, i2, i3, i4. cbv zeta. cbn [fst snd].
  rewrite !run_cons. reflexivity.
Qed.

(** C7, amended. With doors closed and both door flags enabled, the cycles
    drive at 5 m/s, drive at 12 m/s, park, drive at 12 m/s of a new
    controller send: a lock command already in the first cycle (5 m/s is
    18 km/h, above the 10 km/h threshold), no door command in the second (the
    latch is set), an unlock command on the transition into park, and a lock
    command again once back in drive. *)
Theorem door_automation_scenario CP0 make_params p CC1 CS1 CC2 CS2 CC3 CS3
    CC4 CS4 :
  Params.dp_toyota_auto_lock p = true ->
  Params.dp_toyota_auto_unlock p = true ->
  CarState.doorOpen CS1 = false -> CarState.doorOpen CS2 = false ->
  CarState.doorOpen CS3 = false -> CarState.doorOpen CS4 = false ->
  CarState.gearShifter CS1 = drive -> CarState.vEgo CS1 = 5%Q ->
  CarState.gearShifter CS2 = drive -> CarState.vEgo CS2 = 12%Q ->
  CarState.gearShifter CS3 = park ->
  CarState.gearShifter CS4 = drive -> CarState.vEgo CS4 = 12%Q ->
  map (fun out => door_cmds (snd out))
    (snd (run (init CP0 make_params p)
            [(CC1, CS1); (CC2, CS2); (CC3, CS3); (CC4, CS4)]))
  = [[DOOR_LOCK]; []; [DOOR_UNLOCK]; [DOOR_LOCK]].
Proof.
  intros Hl Hu D1 D2 D3 D4 G1 V1 G2 V2 G3 G4 V4.
  rewrite run_outputs4. cbv zeta. cbn [fst snd map].
  set (s0 := init CP0 make_params p).
  set (s1 := fst (update s0 CC1 CS1)).
  set (s2 := fst (update s1 CC2 CS2)).
  set (s3 := fst (update s2 CC3 CS3)).
  destruct (update_config s0 CC1 CS1) as (_ & _ & L1 & U1 & _).
  destruct (update_config s1 CC2 CS2) as (_ & _ & L2 & U2 & _).
  destruct (update_config s2 CC3 CS3) as (_ & _ & L3 & U3 & _).
  cbv zeta in L1, U1, L2, U2, L3, U3.
  fold s1 in L1, U1, L2, U2. fold s2 in L2, U2, L3, U3. fold s3 in L3, U3.
  assert (L0 : dp_toyota_auto_lock s0 = true) by exact Hl.
  assert (U0 : dp_toyota_auto_unlock s0 = true) by exact Hu.
  rewrite L0 in L1. rewrite U0 in U1. rewrite L1 in L2. rewrite U1 in U2.
  rewrite L2 in L3. rewrite U2 in U3.
  destruct (door_cycle s0 CC1 CS1 D1) as (M1 & O1 & P1).
  destruct (door_cycle s1 CC2 CS2 D2) as (M2 & O2 & P2).
  destruct (door_cycle s2 CC3 CS3 D3) as (M3 & O3 & P3).
  destruct (door_cycle s3 CC4 CS4 D4) as (M4 & _ & _).
  cbv zeta in M1, O1, P1, M2, O2, P2, M3, O3, P3, M4.
  fold s1 in O1, P1, M2, O2, P2. fold s2 in O2, P2, M3, O3, P3.
  fold s3 in O3, P3, M4.
  rewrite G1, V1, U0 in M1. rewrite G1, V1 in O1. rewrite G1 in P1.
  change (dp_toyota_auto_lock_once s0) with false in M1, O1.
  cbn in M1, O1.
  rewrite G2, V2, O1 in M2. rewrite G2, V2, O1 in O2. rewrite G2 in P2.
  cbn in M2, O2.
  rewrite G3, P2, L2 in M3. rewrite G3, P2 in O3. rewrite G3 in P3.
  cbn in M3, O3.
  rewrite G4, V4, P3, O3, U3 in M4. cbn in M4.
  rewrite M1, M2, M3, M4. reflexivity.
Qed.

(** *** Steer angle *)

Lemma angle_ok_0 : angle_ok 0.
Proof. split; now vm_compute. Qed.

Lemma angle_ok_clip x : angle_ok (clip x (- MAX_STEER_ANGLE) MAX_STEER_ANGLE).
Proof. apply clip_bounds. now vm_compute. Qed.

Lemma steer_angle_ok self CC CS a r s a' r' :
  steer_angle self CC CS a r = (s, a', r') ->
  angle_ok (last_angle self) -> angle_ok (last_angle s).
Proof.
  unfold steer_angle. repeat break_if; intros H Hok; inversion H; subst;
    self_simpl; auto using angle_ok_clip.
Qed.

Lemma update_last_angle_ok self CC CS :
  angle_ok (last_angle self) ->
  angle_ok (last_angle (fst (update self CC CS))).
Proof.
  intros Hok. open_update self CC CS. rewrite EF. self_simpl.
  assert (Hang : angle_ok (last_angle s3)).
  { apply (steer_angle_ok _ _ _ _ _ _ _ _ E3).
    match goal with S : s3 = _ |- _ => clear S end.
    chase_field last_angle. exact Hok. }
  match goal with S : s3 = _ |- _ => clear S end.
  chase_field last_angle. exact Hang.
Qed.

Lemma run_last_angle_ok inputs : forall self,
  angle_ok (last_angle self) -> angle_ok (last_angle (fst (run self inputs))).
Proof.
  induction inputs as [|[CC CS] inputs IH]; intros self Hok;
    [exact Hok|].
  rewrite run_cons. cbn [fst]. apply IH. now apply update_last_angle_ok.
Qed.

(** The angle the cycle echoes and the angle of its LTA command. *)
Lemma update_angle_out self CC CS :
  let self' := fst (update self CC CS) in
  Actuators.steeringAngleDeg (fst (snd (update self CC CS)))
  = last_angle self'
  /\ lta_angles (snd (snd (update self CC CS)))
     = (if (frame self mod 2 =? 0)
           && car_in (CarParams.carFingerprint (CP self)) TSS2_CAR
        then [if lat_active CC CS
                 && SteerControlType_eqb
                      (CarParams.steerControlType (CP self)) angle
              then last_angle self' else 0%Q]
        else []).
Proof.
  cbv zeta. open_update self CC CS. rewrite EM, EA, EF. self_simpl.
  split; [reflexivity|].
  unfold lta_angles. rewrite flat_map_can_sends. drop_kinds.
  rewrite app_nil_r. fold (lta_angles lta).
  destruct (steer_msgs_spec (set_last_steer s3 a2) CC CS a2 r2)
    as (lta' & EL' & _ & _ & HL).
  rewrite EL in EL'. inversion EL'; subst lta'. rewrite HL. self_simpl.
  assert (HC : CP s3 = CP self) by (chase_field CP; reflexivity).
  assert (HF : frame s3 = frame self) by (chase_field frame; reflexivity).
  assert (HA : last_angle s7 = last_angle s3).
  { match goal with S : s3 = _ |- _ => clear S end.
    chase_field last_angle. reflexivity. }
  now rewrite HC, HF, HA.
Qed.

(** C10, amended. The stored angle is 0 at construction and within
    [-94.9461, 94.9461] after every cycle; the echoed [steeringAngleDeg] is
    the stored angle; the LTA command carries the stored angle when LTA is
    active and 0 otherwise (line 131), so every angle sent or echoed is
    within the limit. *)
Theorem commanded_angle_bound CP0 make_params p inputs CC CS :
  let self := fst (run (init CP0 make_params p) inputs) in
  let self' := fst (update self CC CS) in
  let out := snd (update self CC CS) in
  last_angle (init CP0 make_params p) = 0%Q
  /\ angle_ok (last_angle self)
  /\ angle_ok (last_angle self')
  /\ Actuators.steeringAngleDeg (fst out) = last_angle self'
  /\ lta_angles (snd out)
     = (if (frame self mod 2 =? 0)
           && car_in (CarParams.carFingerprint (CP self)) TSS2_CAR
        then [if lat_active CC CS
                 && SteerControlType_eqb
                      (CarParams.steerControlType (CP self)) angle
              then last_angle self' else 0%Q]
        else [])
  /\ Forall angle_ok (lta_angles (snd out)).
Proof.
  cbv zeta.
  assert (H0 : angle_ok
                 (last_angle (fst (run (init CP0 make_params p) inputs)))).
  { apply run_last_angle_ok. exact angle_ok_0. }
  pose proof (update_last_angle_ok _ CC CS H0) as H1.
  destruct (update_angle_out (fst (run (init CP0 make_params p) inputs)) CC CS)
    as [HE HL].
  cbv zeta in HE, HL.
  split; [reflexivity|]. split; [exact H0|]. split; [exact H1|].
  split; [exact HE|]. split; [exact HL|].
  rewrite HL. repeat break_if; repeat constructor;
    first [apply H1 | apply angle_ok_0].
Qed.

(** ** Further properties of a cycle *)

(** A property every cycle keeps holds after every run of cycles. *)
Lemma run_invariant (P : t -> Prop) :
  (forall s CC CS, P s -> P (fst (update s CC CS))) ->
  forall inputs s, P s -> P (fst (run s inputs)).
Proof.
  intros Hstep. induction inputs as [|[CC CS] inputs IH]; intros s Hs.
  - exact Hs.
  - rewrite run_cons. cbn [fst]. apply IH, Hstep, Hs.
Qed.

(** X1. The frame counter counts the cycles: after a run of n cycles it is
    n more than before, and the car parameters, the limits and the three
    flags read at construction are what they were. *)
Theorem frame_counts_cycles self inputs :
  let self' := fst (run self inputs) in
  frame self' = frame self + Z.of_nat (List.length inputs)
  /\ CP self' = CP self /\ params self' = params self
  /\ dp_toyota_auto_lock self' = dp_toyota_auto_lock self
  /\ dp_toyota_auto_unlock self' = dp_toyota_auto_unlock self
  /\ dp_toyota_sng self' = dp_toyota_sng self.
Proof.
  cbv zeta. revert self.
  induction inputs as [|[CC CS] inputs IH]; intros self.
  - cbn. repeat split. lia.
  - rewrite run_cons. cbn [fst].
    destruct (IH (fst (update self CC CS))) as (F & C & P & L & U & S).
    destruct (update_config self CC CS) as (C' & P' & L' & U' & S').
    cbv zeta in C', P', L', U', S'.
    rewrite F, C, P, L, U, S, update_frame, C', P', L', U', S'.
    cbn [List.length]. rewrite Nat2Z.inj_succ. repeat split. lia.
Qed.

(** X4. From construction on, the steer-rate counter stays between 0 and
    the frame threshold 18 after every cycle. *)
Theorem steer_rate_counter_range CP0 make_params p inputs :
  0 <= steer_rate_counter (fst (run (init CP0 make_params p) inputs))
       <= MAX_STEER_RATE_FRAMES.
Proof.
  apply (run_invariant
           (fun s => 0 <= steer_rate_counter s <= MAX_STEER_RATE_FRAMES)).
  - intros s CC CS Hs. rewrite update_steer_rate_counter.
    unfold MAX_STEER_RATE_FRAMES in *.
    destruct (steer_rate_high CC CS); [|lia].
    destruct (_ >? _) eqn:G; [lia|].
    rewrite Z.gtb_ltb in G. apply Z.ltb_ge in G. lia.
  - cbn. unfold MAX_STEER_RATE_FRAMES. lia.
Qed.

(** *** Steer torque and steer angle, continued *)

Lemma steer_torque_value self CC CS s a r :
  steer_torque self CC CS = (s, a, r) ->
  lat_active CC CS = true ->
  a = apply_meas_steer_torque_limits
        (py_round
           (Actuators.steer (CarControl.actuators CC)
            * inject_Z (Zpos (CarControllerParams.STEER_MAX (params self))))%Q)
        (last_steer self) (CarState.steeringTorqueEps CS) (params self).
Proof.
  unfold steer_torque. intros H Hl. rewrite Hl in H. cbn [negb] in H.
  revert H. repeat break_if; intros H; inversion H; reflexivity.
Qed.

Lemma steer_angle_last_angle self CC CS a r s a' r' :
  steer_angle self CC CS a r = (s, a', r') ->
  last_angle s
  = if SteerControlType_eqb (CarParams.steerControlType (CP self)) angle
       && (frame self mod 2 =? 0)
    then clip
           (if negb (lat_active CC CS)
            then (CarState.steeringAngleDeg CS
                  + CarState.steeringAngleOffsetDeg CS)%Q
            else apply_std_steer_angle_limits
                   (Actuators.steeringAngleDeg (CarControl.actuators CC)
                    + CarState.steeringAngleOffsetDeg CS)%Q
                   (last_angle self) (CarState.vEgo CS) (params self))
           (- MAX_STEER_ANGLE)%Q MAX_STEER_ANGLE
    else last_angle self.
Proof.
  unfold steer_angle.
  destruct (SteerControlType_eqb _ _), (frame self mod 2 =? 0);
    cbn [andb]; intros H; inversion H; reflexivity.
Qed.

Lemma update_last_angle self CC CS :
  last_angle (fst (update self CC CS))
  = if SteerControlType_eqb (CarParams.steerControlType (CP self)) angle
       && (frame self mod 2 =? 0)
    then clip
           (if negb (lat_active CC CS)
            then (CarState.steeringAngleDeg CS
                  + CarState.steeringAngleOffsetDeg CS)%Q
            else apply_std_steer_angle_limits
                   (Actuators.steeringAngleDeg (CarControl.actuators CC)
                    + CarState.steeringAngleOffsetDeg CS)%Q
                   (last_angle self) (CarState.vEgo CS) (params self))
           (- MAX_STEER_ANGLE)%Q MAX_STEER_ANGLE
    else last_angle self.
Proof.
  open_update self CC CS. rewrite EF. self_simpl.
  pose proof (steer_angle_last_angle _ _ _ _ _ _ _ _ E3) as HA.
  assert (HC : CP s2 = CP self) by (chase_field CP; reflexivity).
  assert (HF : frame s2 = frame self) by (chase_field frame; reflexivity).
  assert (HP : params s2 = params self)
    by (chase_field params; reflexivity).
  assert (HL : last_angle s2 = last_angle self)
    by (chase_field last_angle; reflexivity).
  rewrite HC, HF, HP, HL in HA. rewrite <- HA.
  match goal with S : s3 = _ |- _ => clear S end.
  chase_field last_angle. reflexivity.
Qed.

Lemma steer_msgs_lta self CC CS a r :
  lta_cmds (steer_msgs self CC CS a r [])
  = if (frame self mod 2 =? 0)
       && car_in (CarParams.carFingerprint (CP self)) TSS2_CAR
    then
      let lta_active :=
        lat_active CC CS
        && SteerControlType_eqb (CarParams.steerControlType (CP self)) angle in
      [create_lta_steer_command
         (if lta_active then last_angle self else 0%Q) lta_active
         (frame self / 2)
         (if lta_active
             && (Qlt_bool (Qabs (CarState.steeringTorqueEps CS))
                   (inject_Z
                      (Zpos (CarControllerParams.STEER_MAX (params self))))
                 && Qlt_bool (Qabs (CarState.steeringTorque CS))
                      MAX_DRIVER_TORQUE_ALLOWANCE)
          then 100 else 0)]
    else [].
Proof. unfold steer_msgs. break_if; reflexivity. Qed.

Lemma update_lta_cmds self CC CS :
  lta_cmds (snd (snd (update self CC CS)))
  = if (frame self mod 2 =? 0)
       && car_in (CarParams.carFingerprint (CP self)) TSS2_CAR
    then
      let lta_active :=
        lat_active CC CS
        && SteerControlType_eqb (CarParams.steerControlType (CP self)) angle in
      [create_lta_steer_command
         (if lta_active then last_angle (fst (update self CC CS)) else 0%Q)
         lta_active (frame self / 2)
         (if lta_active
             && (Qlt_bool (Qabs (CarState.steeringTorqueEps CS))
                   (inject_Z
                      (Zpos (CarControllerParams.STEER_MAX (params self))))
                 && Qlt_bool (Qabs (CarState.steeringTorque CS))
                      MAX_DRIVER_TORQUE_ALLOWANCE)
          then 100 else 0)]
    else [].
Proof.
  open_update self CC CS. rewrite EM, EF. self_simpl.
  pose proof (steer_msgs_lta (set_last_steer s3 a2) CC CS a2 r2) as HL.
  rewrite EL in HL. unfold lta_cmds in *. cbn [filter is_lta_steer_command] in HL.
  rewrite filter_can_sends. drop_kinds. cbn [filter is_lta_steer_command app].
  rewrite app_nil_r, HL. self_simpl.
  assert (HC : CP s3 = CP self) by (chase_field CP; reflexivity).
  assert (HF : frame s3 = frame self) by (chase_field frame; reflexivity).
  assert (HP : params s3 = params self)
    by (chase_field params; reflexivity).
  assert (HA : last_angle s7 = last_angle s3).
  { match goal with S : s3 = _ |- _ => clear S end.
    chase_field last_angle. reflexivity. }
  now rewrite HC, HF, HP, HA.
Qed.

Lemma update_steer_torque self CC CS :
  CarParams.steerControlType (CP self) = torque ->
  lat_active CC CS = true ->
  let apply_steer :=
    apply_meas_steer_torque_limits
      (py_round
         (Actuators.steer (CarControl.actuators CC)
          * inject_Z (Zpos (CarControllerParams.STEER_MAX (params self))))%Q)
      (last_steer self) (CarState.steeringTorqueEps CS) (params self) in
  steer_cmds (snd (snd (update self CC CS)))
  = [(apply_steer,
      if steer_rate_high CC CS
         && (steer_rate_counter self + 1 >? MAX_STEER_RATE_FRAMES)
      then 0 else 1)]
  /\ last_steer (fst (update self CC CS)) = apply_steer.
Proof.
  intros Ht Hl. cbv zeta.
  destruct (update_steer_cmds self CC CS) as (a & Hs & _ & Hls & _).
  rewrite Hs, Hls, Ht, Hl. cbn [SteerControlType_eqb negb].
  assert (Ha : a = apply_meas_steer_torque_limits
                 (py_round
                    (Actuators.steer (CarControl.actuators CC)
                     * inject_Z
                         (Zpos (CarControllerParams.STEER_MAX (params self))))%Q)
                 (last_steer self) (CarState.steeringTorqueEps CS)
                 (params self)).
  { rewrite <- Hls. clear Hs Hls.
    open_update self CC CS. rewrite EF. self_simpl.
    pose proof (steer_torque_value _ _ _ _ _ _ E2 Hl) as Hv.
    pose proof (steer_angle_spec _ _ _ _ _ _ _ _ E3) as HA.
    assert (HC : CP s2 = CP self) by (chase_field CP; reflexivity).
    assert (HP : params s1 = params self)
      by (chase_field params; reflexivity).
    assert (HS : last_steer s1 = last_steer self)
      by (chase_field last_steer; reflexivity).
    rewrite HC, Ht in HA. cbn in HA. inversion HA; subst a2 r2.
    rewrite HP, HS in Hv. rewrite <- Hv.
    chase_field last_steer. reflexivity. }
  rewrite Ha. split; reflexivity.
Qed.

(** X2. Torque and angle control exclude each other. Under angle control
    the steer command of every cycle is torque 0 with request 0 and the
    stored torque is 0; under torque control the stored angle never changes
    and every LTA command sent is the inactive one (angle 0, request off,
    [setme_x64] 0). *)
Theorem torque_angle_exclusive self CC CS :
  match CarParams.steerControlType (CP self) with
  | angle =>
      steer_cmds (snd (snd (update self CC CS))) = [(0, 0)]
      /\ last_steer (fst (update self CC CS)) = 0
  | torque =>
      last_angle (fst (update self CC CS)) = last_angle self
      /\ Forall
           (fun m => m = create_lta_steer_command 0 false (frame self / 2) 0)
           (lta_cmds (snd (snd (update self CC CS))))
  end.
Proof.
  destruct (CarParams.steerControlType (CP self)) eqn:Ht.
  - split.
    + now rewrite update_last_angle, Ht.
    + rewrite update_lta_cmds, Ht. cbv zeta.
      rewrite andb_false_r. break_if; repeat constructor.
  - destruct (update_steer_cmds self CC CS) as (a & Hs & _ & Hls & _).
    rewrite Ht in Hs. cbn [SteerControlType_eqb] in Hs.
    open_update self CC CS.
    pose proof (steer_angle_spec _ _ _ _ _ _ _ _ E3) as HA.
    assert (HC : CP s2 = CP self) by (chase_field CP; reflexivity).
    rewrite HC, Ht in HA. cbn in HA. inversion HA; subst a2 r2.
    assert (Hz : a = 0).
    { rewrite <- Hls, EF. self_simpl. chase_field last_steer. reflexivity. }
    rewrite Hs, Hls, Hz. split; reflexivity.
Qed.

(** X14. Under angle control the stored angle changes on even frames only.
    With lateral control inactive it becomes the measured angle plus the
    sensor offset, clamped to the limit, whatever angle the caller asks for;
    with lateral control active it is the rate-limited request, clamped. *)
Theorem stored_angle_update self CC CS :
  CarParams.steerControlType (CP self) = angle ->
  (frame self mod 2 <> 0 ->
   last_angle (fst (update self CC CS)) = last_angle self)
  /\ (frame self mod 2 = 0 -> lat_active CC CS = false ->
      last_angle (fst (update self CC CS))
      = clip (CarState.steeringAngleDeg CS
              + CarState.steeringAngleOffsetDeg CS)%Q
          (- MAX_STEER_ANGLE)%Q MAX_STEER_ANGLE)
  /\ (frame self mod 2 = 0 -> lat_active CC CS = true ->
      last_angle (fst (update self CC CS))
      = clip
          (apply_std_steer_angle_limits
             (Actuators.steeringAngleDeg (CarControl.actuators CC)
              + CarState.steeringAngleOffsetDeg CS)%Q
             (last_angle self) (CarState.vEgo CS) (params self))
          (- MAX_STEER_ANGLE)%Q MAX_STEER_ANGLE).
Proof.
  intros Ht. rewrite update_last_angle, Ht. cbn [SteerControlType_eqb andb].
  repeat split.
  - intros Hf. apply Z.eqb_neq in Hf. now rewrite Hf.
  - intros Hf Hl. now rewrite Hf, Hl.
  - intros Hf Hl. now rewrite Hf, Hl.
Qed.

(** X3. Under torque control with lateral control active, the steer command
    carries the torque the limit function returns for the rounded request;
    when the steer-rate counter passes the frame threshold only the request
    flag drops to 0: the torque sent and stored is still the limited one. *)
Theorem steer_rate_cut_keeps_torque self CC CS :
  CarParams.steerControlType (CP self) = torque ->
  lat_active CC CS = true ->
  let apply_steer :=
    apply_meas_steer_torque_limits
      (py_round
         (Actuators.steer (CarControl.actuators CC)
          * inject_Z (Zpos (CarControllerParams.STEER_MAX (params self))))%Q)
      (last_steer self) (CarState.steeringTorqueEps CS) (params self) in
  (steer_rate_high CC CS = true ->
   steer_rate_counter self = MAX_STEER_RATE_FRAMES ->
   steer_cmds (snd (snd (update self CC CS))) = [(apply_steer, 0)])
  /\ (steer_rate_high CC CS = false
      \/ steer_rate_counter self < MAX_STEER_RATE_FRAMES ->
      steer_cmds (snd (snd (update self CC CS))) = [(apply_steer, 1)])
  /\ last_steer (fst (update self CC CS)) = apply_steer.
Proof.
  intros Ht Hl. cbv zeta.
  destruct (update_steer_torque self CC CS Ht Hl) as [Hs Hls].
  cbv zeta in Hs, Hls. rewrite Hs, Hls. repeat split.
  - intros Hh Hc. now rewrite Hh, Hc.
  - intros [Hh|Hc]; [now rewrite Hh|].
    destruct (_ >? _) eqn:G; [|now rewrite andb_false_r].
    rewrite Z.gtb_ltb in G. apply Z.ltb_lt in G. lia.
Qed.

(** *** Accel / cancel message, continued *)

Lemma long_msgs_msg self CC CS s m :
  long_msgs self CC CS [] = (s, m) ->
  m = long_msg_due self CC CS (standstill_req self)
  /\ accel s
     = if accel_stored self CC CS then pcm_accel_cmd self CC else accel self.
Proof.
  unfold long_msgs, long_msg_due, accel_stored.
  destruct (((frame self mod 3 =? 0)
             && CarParams.openpilotLongitudinalControl (CP self))
            || pcm_cancel_cmd CC CS); cbn [andb];
    [|intros H; inversion H; split; reflexivity].
  destruct (pcm_cancel_cmd CC CS
            && car_in (CarParams.carFingerprint (CP self))
                 UNSUPPORTED_DSU_CAR); cbn [negb andb];
    [intros H; inversion H; split; reflexivity|].
  destruct (CarParams.openpilotLongitudinalControl (CP self));
    intros H; inversion H; split; reflexivity.
Qed.

Lemma update_long_msg self CC CS :
  long_cmds (snd (snd (update self CC CS)))
  = long_msg_due self CC CS (standstill_req (fst (update self CC CS)))
  /\ accel (fst (update self CC CS))
     = if accel_stored self CC CS then pcm_accel_cmd self CC else accel self.
Proof.
  open_update self CC CS. rewrite EM, EF. self_simpl.
  destruct (long_msgs_msg _ _ _ _ _ E5) as [Hm Ha].
  set (s4 := standstill (set_last_steer s3 a2) CS) in *.
  assert (HC : CP s4 = CP self)
    by (unfold s4; chase_field CP; reflexivity).
  assert (HF : frame s4 = frame self)
    by (unfold s4; chase_field frame; reflexivity).
  assert (HP : params s4 = params self)
    by (unfold s4; chase_field params; reflexivity).
  assert (HA : accel s4 = accel self)
    by (unfold s4; chase_field accel; reflexivity).
  assert (HS : standstill_req s7 = standstill_req s4).
  { rewrite (f_equal standstill_req H4). self_simpl.
    rewrite (f_equal standstill_req H3). self_simpl.
    rewrite (f_equal standstill_req H2). self_simpl. reflexivity. }
  assert (HA7 : accel s7 = accel s5).
  { rewrite (f_equal accel H4). self_simpl.
    rewrite (f_equal accel H3). self_simpl. reflexivity. }
  unfold long_msg_due, accel_stored, pcm_accel_cmd in *.
  rewrite HC, HF, HP, HA in *. rewrite HS, HA7, Ha. split; [|reflexivity].
  unfold long_cmds. rewrite filter_can_sends. drop_kinds.
  cbn [filter is_long_command app]. rewrite app_nil_r.
  rewrite (filter_all_kind_true is_long_command KLong long);
    [exact Hm|now intros []|assumption].
Qed.

(** The accel commands of a cycle are among its accel / cancel messages. *)
Lemma update_accel_cmds self CC CS :
  accel_cmds (snd (snd (update self CC CS)))
  = accel_cmds (long_cmds (snd (snd (update self CC CS)))).
Proof.
  open_update self CC CS. rewrite EM. unfold accel_cmds, long_cmds.
  rewrite filter_can_sends, flat_map_can_sends. drop_kinds.
  cbn [filter is_long_command app]. rewrite !app_nil_r.
  now rewrite (filter_all_kind_true is_long_command KLong long);
    [|now intros []|].
Qed.

(** X5. Every accel command a cycle sends carries the pending cancel and a
    lead flag that is set whenever a lead is visible or the speed is below
    12. On a car under openpilot longitudinal control its acceleration is
    within [ACCEL_MIN, ACCEL_MAX] and its standstill flag is the standstill
    request the cycle leaves; on any other car it carries acceleration 0 and
    no standstill request. *)
Theorem accel_command_limits self CC CS :
  (CarControllerParams.ACCEL_MIN (params self)
   <= CarControllerParams.ACCEL_MAX (params self))%Q ->
  Forall
    (fun cmd =>
       let '(a, c, s, l) := cmd in
       c = pcm_cancel_cmd CC CS
       /\ l = (HUDControl.leadVisible (CarControl.hudControl CC)
               || Qlt_bool (CarState.vEgo CS) 12%Q)
       /\ if CarParams.openpilotLongitudinalControl (CP self)
          then (CarControllerParams.ACCEL_MIN (params self) <= a
                <= CarControllerParams.ACCEL_MAX (params self))%Q
               /\ s = standstill_req (fst (update self CC CS))
          else a = 0%Q /\ s = false)
    (accel_cmds (snd (snd (update self CC CS)))).
Proof.
  intros Hb.
  rewrite update_accel_cmds. destruct (update_long_msg self CC CS) as [-> _].
  unfold long_msg_due. repeat break_if; cbn; repeat constructor;
    try reflexivity; apply clip_bounds; exact Hb.
Qed.

(** X6. The echoed [accel] and [gas] are the stored values, and these are
    the values of the last commands sent: a cycle that sends a gas
    interceptor command stores its value, a cycle of a car under openpilot
    longitudinal control that sends an accel command stores its
    acceleration, and every other cycle leaves the stored value as it was
    (the accel command of a car without longitudinal control is not
    stored). *)
Theorem echo_is_last_sent self CC CS :
  let self' := fst (update self CC CS) in
  let out := snd (update self CC CS) in
  Actuators.accel (fst out) = accel self'
  /\ Actuators.gas (fst out) = gas self'
  /\ gas self'
     = match gas_cmds (snd out) with g :: _ => g | [] => gas self end
  /\ accel self'
     = if CarParams.openpilotLongitudinalControl (CP self)
       then match accel_cmds (snd out) with
            | (a, _, _, _) :: _ => a
            | [] => accel self
            end
       else accel self.
Proof.
  cbv zeta.
  assert (HE : Actuators.accel (fst (snd (update self CC CS)))
               = accel (fst (update self CC CS))
               /\ Actuators.gas (fst (snd (update self CC CS)))
                  = gas (fst (update self CC CS))).
  { open_update self CC CS. rewrite EA, EF. split; reflexivity. }
  destruct HE as [HE1 HE2]. split; [exact HE1|]. split; [exact HE2|].
  split.
  - rewrite update_gas_cmds. open_update self CC CS. rewrite EF. self_simpl.
    assert (HC : CP s5 = CP self) by (chase_field CP; reflexivity).
    assert (HF : frame s5 = frame self) by (chase_field frame; reflexivity).
    assert (HG : gas s5 = gas self) by (chase_field gas; reflexivity).
    assert (HG7 : gas s7 = gas s6).
    { rewrite (f_equal gas H4). self_simpl. reflexivity. }
    rewrite HG7. revert E6. unfold gas_msgs, interceptor_gas_cmd.
    rewrite HC, HF. break_if; intros E6; inversion E6; subst;
      self_simpl; [reflexivity|exact HG].
  - rewrite update_accel_cmds.
    destruct (update_long_msg self CC CS) as [-> ->].
    unfold long_msg_due, accel_stored.
    destruct (((frame self mod 3 =? 0)
               && CarParams.openpilotLongitudinalControl (CP self))
              || pcm_cancel_cmd CC CS),
      (pcm_cancel_cmd CC CS
       && car_in (CarParams.carFingerprint (CP self)) UNSUPPORTED_DSU_CAR),
      (CarParams.openpilotLongitudinalControl (CP self)); reflexivity.
Qed.

(** X7. On a car under openpilot longitudinal control, any three consecutive
    cycles without a pending cancel send exactly one accel / cancel
    message. *)
Theorem long_message_every_third_cycle self i1 i2 i3 :
  CarParams.openpilotLongitudinalControl (CP self) = true ->
  pcm_cancel_cmd (fst i1) (snd i1) = false ->
  pcm_cancel_cmd (fst i2) (snd i2) = false ->
  pcm_cancel_cmd (fst i3) (snd i3) = false ->
  List.length (run_long_cmds (snd (run self [i1; i2; i3]))) = 1%nat.
Proof.
  destruct i1 as [CC1 CS1], i2 as [CC2 CS2], i3 as [CC3 CS3].
  cbn [fst snd]. intros Ho H1 H2 H3.
  rewrite !run_cons. cbn [run fst snd]. unfold run_long_cmds.
  cbn [flat_map]. rewrite !length_app, !update_long_cmds, !update_frame.
  cbn [List.length].
  set (s1 := fst (update self CC1 CS1)).
  set (s2 := fst (update s1 CC2 CS2)).
  destruct (update_config self CC1 CS1) as (C1 & _).
  destruct (update_config s1 CC2 CS2) as (C2 & _).
  cbv zeta in C1, C2. fold s1 in C1, C2. fold s2 in C2.
  rewrite C2, C1, Ho, H1, H2, H3. cbn [andb orb].
  rewrite !andb_true_r, !orb_false_r.
  destruct (Z.eqb_spec (frame self mod 3) 0),
    (Z.eqb_spec ((frame self + 1) mod 3) 0),
    (Z.eqb_spec ((frame self + 1 + 1) mod 3) 0); cbn;
    Z.to_euclidean_division_equations; lia.
Qed.

(** X15. A car without openpilot longitudinal control sends an accel /
    cancel message only to cancel: over any run of cycles with no cancel
    pending it sends none. *)
Theorem no_long_message_without_long_control self inputs :
  CarParams.openpilotLongitudinalControl (CP self) = false ->
  forallb (fun i => negb (pcm_cancel_cmd (fst i) (snd i))) inputs = true ->
  run_long_cmds (snd (run self inputs)) = [].
Proof.
  revert self. induction inputs as [|[CC CS] inputs IH]; intros self Ho Hall.
  - reflexivity.
  - cbn [forallb fst snd] in Hall. apply andb_prop in Hall as [Hc Hall].
    apply negb_true_iff in Hc.
    rewrite run_cons. cbn [snd]. unfold run_long_cmds in *.
    cbn [flat_map snd].
    pose proof (update_long_cmds self CC CS) as HL.
    rewrite Ho, Hc, andb_false_r in HL. cbn in HL.
    destruct (long_cmds _); [|discriminate]. cbn [app].
    apply IH; [|assumption].
    destruct (update_config self CC CS) as (-> & _). exact Ho.
Qed.

(** *** UI alert, continued *)

Lemma hud_ui_msgs self CC CS s m :
  hud_ui self CC CS [] = (s, m) ->
  CAR_eqb (CarParams.carFingerprint (CP self)) PRIUS_V = false ->
  let send_ui :=
    xorb (alert_now CC) (alert_active self) || pcm_cancel_cmd CC CS in
  m = (if (frame self mod 20 =? 0) || send_ui
       then [create_ui_command (steer_alert CC) (pcm_cancel_cmd CC CS)
               (HUDControl.leftLaneVisible (CarControl.hudControl CC))
               (HUDControl.rightLaneVisible (CarControl.hudControl CC))
               (HUDControl.leftLaneDepart (CarControl.hudControl CC))
               (HUDControl.rightLaneDepart (CarControl.hudControl CC))
               (CarControl.enabled CC) (CarState.lkas_hud CS)]
       else [])
      ++ (if ((frame self mod 100 =? 0) || send_ui)
             && CarParams.enableDsu (CP self)
          then [create_fcw_command (fcw_alert CC)] else []).
Proof.
  unfold hud_ui, alert_now. intros H Hp. rewrite Hp in H. cbn [negb] in H.
  revert H.
  destruct (fcw_alert CC || steer_alert CC), (alert_active self),
    (pcm_cancel_cmd CC CS); cbn [negb andb orb xorb]; self_simpl;
    destruct (frame self mod 20 =? 0), (frame self mod 100 =? 0),
      (CarParams.enableDsu (CP self));
    cbn [negb andb orb xorb app]; intros H; inversion H; reflexivity.
Qed.

(** The UI alert and forward-collision messages of a cycle. *)
Lemma update_ui_fcw self CC CS :
  CAR_eqb (CarParams.carFingerprint (CP self)) PRIUS_V = false ->
  let send_ui :=
    xorb (alert_now CC) (alert_active self) || pcm_cancel_cmd CC CS in
  ui_cmds (snd (snd (update self CC CS)))
  = (if (frame self mod 20 =? 0) || send_ui
     then [create_ui_command (steer_alert CC) (pcm_cancel_cmd CC CS)
             (HUDControl.leftLaneVisible (CarControl.hudControl CC))
             (HUDControl.rightLaneVisible (CarControl.hudControl CC))
             (HUDControl.leftLaneDepart (CarControl.hudControl CC))
             (HUDControl.rightLaneDepart (CarControl.hudControl CC))
             (CarControl.enabled CC) (CarState.lkas_hud CS)]
     else [])
  /\ fcw_cmds (snd (snd (update self CC CS)))
     = (if ((frame self mod 100 =? 0) || send_ui)
           && CarParams.enableDsu (CP self)
        then [create_fcw_command (fcw_alert CC)] else []).
Proof.
  intros Hp. cbv zeta. open_update self CC CS. rewrite EM.
  assert (HC : CP s6 = CP self) by (chase_field CP; reflexivity).
  assert (HF : frame s6 = frame self) by (chase_field frame; reflexivity).
  assert (HA : alert_active s6 = alert_active self)
    by (chase_field alert_active; reflexivity).
  rewrite <- HC in Hp.
  pose proof (hud_ui_msgs _ _ _ _ _ E7 Hp) as HM. cbv zeta in HM.
  rewrite HC, HF, HA in HM.
  unfold ui_cmds, fcw_cmds. rewrite !filter_can_sends. drop_kinds.
  cbn [filter is_ui_command is_fcw_command app]. rewrite !app_nil_r.
  rewrite (filter_all_kind_true is_ui_command KUi ui);
    [|now intros []|assumption].
  rewrite (filter_all_kind_true is_fcw_command KFcw fcws);
    [|now intros []|assumption].
  assert (HU : filter is_ui_command (ui ++ fcws) = ui).
  { rewrite filter_app.
    rewrite (filter_all_kind_true is_ui_command KUi ui);
      [|now intros []|assumption].
    rewrite (filter_all_kind is_ui_command KFcw fcws);
      [apply app_nil_r|now intros []|assumption]. }
  assert (HW : filter is_fcw_command (ui ++ fcws) = fcws).
  { rewrite filter_app.
    rewrite (filter_all_kind is_fcw_command KUi ui);
      [|now intros []|assumption].
    rewrite (filter_all_kind_true is_fcw_command KFcw fcws);
      [reflexivity|now intros []|assumption]. }
  rewrite <- HU at 1. rewrite <- HW at 2. rewrite HM.
  split; repeat break_if; reflexivity.
Qed.

(** X8. A cancel is pending when the caller asks for it or when the system
    is disabled while the cruise status is not 0. In such a cycle, whatever
    the frame, one accel / cancel message is sent (the separate cancel
    message for a car of [UNSUPPORTED_DSU_CAR], else an accel command with
    the cancel flag set) and, unless the car is a Prius V, one UI alert
    message with the cancel flag set. *)
Theorem cancel_is_immediate self CC CS :
  CarControl.cancel CC = true
  \/ (CarControl.enabled CC = false /\ CarState.pcm_acc_status CS <> 0) ->
  (exists m,
      long_cmds (snd (snd (update self CC CS))) = [m]
      /\ if car_in (CarParams.carFingerprint (CP self)) UNSUPPORTED_DSU_CAR
         then m = create_acc_cancel_command
         else exists a s l ty, m = create_accel_command a true s l ty)
  /\ (CAR_eqb (CarParams.carFingerprint (CP self)) PRIUS_V = false ->
      ui_cmds (snd (snd (update self CC CS)))
      = [create_ui_command (steer_alert CC) true
           (HUDControl.leftLaneVisible (CarControl.hudControl CC))
           (HUDControl.rightLaneVisible (CarControl.hudControl CC))
           (HUDControl.leftLaneDepart (CarControl.hudControl CC))
           (HUDControl.rightLaneDepart (CarControl.hudControl CC))
           (CarControl.enabled CC) (CarState.lkas_hud CS)]).
Proof.
  intros Hc.
  assert (Hp : pcm_cancel_cmd CC CS = true).
  { unfold pcm_cancel_cmd. destruct Hc as [Hc|[He Hs]].
    - rewrite Hc. now destruct (_ && _).
    - apply Z.eqb_neq in Hs. now rewrite He, Hs. }
  split.
  - destruct (update_long_msg self CC CS) as [-> _].
    unfold long_msg_due. rewrite Hp, orb_true_r. cbn [andb].
    eexists. split; [reflexivity|].
    destruct (car_in _ UNSUPPORTED_DSU_CAR); [reflexivity|].
    destruct (CarParams.openpilotLongitudinalControl _);
      do 4 eexists; reflexivity.
  - intros Hv. destruct (update_ui_fcw self CC CS Hv) as [-> _].
    now rewrite Hp, !orb_true_r.
Qed.

(** *** Static messages *)

Lemma static_msgs_due self rows :
  static_msgs self rows [] = static_due (frame self) (CP self) rows.
Proof.
  induction rows as [|[[[[addr cars] bus] fr_step] vl] rows IH];
    [reflexivity|].
  cbn [static_msgs static_due flat_map]. rewrite static_msgs_app, IH.
  fold (static_due (frame self) (CP self) rows).
  now break_if.
Qed.

Lemma update_can_msgs self CC CS :
  can_msgs (snd (snd (update self CC CS)))
  = door_cmds (snd (snd (update self CC CS)))
    ++ static_due (frame self) (CP self) STATIC_DSU_MSGS.
Proof.
  destruct (update_door self CC CS) as (-> & _).
  open_update self CC CS. rewrite EM, E1. cbn [snd].
  unfold can_msgs. rewrite filter_can_sends. drop_kinds.
  cbn [filter is_can_msg app].
  rewrite (filter_all_kind_true is_can_msg KCan door);
    [|now intros []|assumption].
  rewrite (filter_all_kind_true is_can_msg KCan
             (static_msgs s7 STATIC_DSU_MSGS []));
    [|now intros []|assumption].
  rewrite static_msgs_due.
  assert (HC : CP s7 = CP self) by (chase_field CP; reflexivity).
  assert (HF : frame s7 = frame self) by (chase_field frame; reflexivity).
  now rewrite HC, HF.
Qed.

(** X10. The static messages are the last messages of a cycle: the rows of
    the static table that are due, in table order, one message per row whose
    frame step divides the frame and whose car list holds the car, for a car
    with a DSU. The only raw messages before them are the door commands. *)
Theorem static_messages_follow_table self CC CS :
  exists before,
    snd (snd (update self CC CS))
    = before ++ static_due (frame self) (CP self) STATIC_DSU_MSGS
    /\ can_msgs before = door_cmds (snd (snd (update self CC CS))).
Proof.
  destruct (update_door self CC CS) as (-> & _).
  open_update self CC CS. rewrite EM, E1. cbn [snd].
  exists (door ++ create_steer_command a2 r2 :: lta ++ long ++ gasm ++ ui
          ++ fcws).
  assert (HC : CP s7 = CP self) by (chase_field CP; reflexivity).
  assert (HF : frame s7 = frame self) by (chase_field frame; reflexivity).
  split.
  - rewrite static_msgs_due, HC, HF. rewrite <- app_assoc. cbn [app].
    now rewrite <- !app_assoc.
  - unfold can_msgs. rewrite filter_app. cbn [filter is_can_msg].
    rewrite !filter_app. drop_kinds. rewrite !app_nil_r.
    apply (filter_all_kind_true is_can_msg KCan door);
      [now intros []|assumption].
Qed.

Lemma static_due_no_dsu frame0 CP0 rows :
  CarParams.enableDsu CP0 = false -> static_due frame0 CP0 rows = [].
Proof.
  intros Hd. induction rows as [|[[[[addr cars] bus] fr_step] vl] rows IH];
    [reflexivity|].
  cbn [static_due flat_map]. fold (static_due frame0 CP0 rows).
  now rewrite IH, Hd, andb_false_r.
Qed.

(** X9. A car without a DSU never gets a forward-collision message or a
    static message: the only raw messages of its cycles are door
    commands. *)
Theorem no_dsu_no_fcw_no_static self CC CS :
  CarParams.enableDsu (CP self) = false ->
  fcw_cmds (snd (snd (update self CC CS))) = []
  /\ can_msgs (snd (snd (update self CC CS)))
     = door_cmds (snd (snd (update self CC CS))).
Proof.
  intros Hd. split.
  - destruct (CAR_eqb (CarParams.carFingerprint (CP self)) PRIUS_V) eqn:Hp.
    + open_update self CC CS. rewrite EM.
      assert (HC : CP s6 = CP self) by (chase_field CP; reflexivity).
      pose proof (hud_ui_spec _ _ _ _ _ E7) as HU.
      rewrite HC, Hp in HU. destruct HU as [HU _].
      apply app_eq_nil in HU as [-> ->].
      unfold fcw_cmds. rewrite filter_can_sends. drop_kinds. reflexivity.
    + destruct (update_ui_fcw self CC CS Hp) as [_ ->].
      now rewrite Hd, andb_false_r.
  - rewrite update_can_msgs, static_due_no_dsu; [apply app_nil_r|exact Hd].
Qed.

(** *** Door automation, continued *)

(** X11. While a door is open the door automation does nothing: no door
    command is sent and neither the tracked gear nor the latch changes, so a
    gear change made with a door open is acted on only in the first cycle
    with the doors closed. *)
Theorem door_open_freezes self CC CS :
  CarState.doorOpen CS = true ->
  door_cmds (snd (snd (update self CC CS))) = []
  /\ dp_toyota_auto_lock_gear_prev (fst (update self CC CS))
     = dp_toyota_auto_lock_gear_prev self
  /\ dp_toyota_auto_lock_once (fst (update self CC CS))
     = dp_toyota_auto_lock_once self.
Proof.
  intros Hd. destruct (update_door self CC CS) as (-> & -> & ->).
  unfold door_auto_lock. rewrite Hd. repeat split.
Qed.

(** A cycle with the gear not in park: a latched controller sends no door
    command and stays latched; an unlatched one sends nothing or sends the
    lock command and latches. *)
Lemma door_cycle_no_park self CC CS :
  GearShifter_eqb (CarState.gearShifter CS) park = false ->
  let d := door_cmds (snd (snd (update self CC CS))) in
  let once' := dp_toyota_auto_lock_once (fst (update self CC CS)) in
  if dp_toyota_auto_lock_once self
  then d = [] /\ once' = true
  else d = [] \/ (d = [DOOR_LOCK] /\ once' = true).
Proof.
  intros Hg. cbv zeta. destruct (update_door self CC CS) as (-> & -> & _).
  unfold door_auto_lock. rewrite Hg. cbn [andb].
  destruct (dp_toyota_auto_lock_once self) eqn:Ho;
    repeat break_if; self_simpl; cbn [app negb andb] in *;
    rewrite ?Ho; rewrite ?andb_false_r in *; cbn [andb] in *;
    try discriminate; auto.
Qed.

(** X12. At most one lock command per drive session: over any run of cycles
    in which the gear is never park, a controller sends at most one door
    command, none at all if its latch is already set, and never an unlock
    command. *)
Theorem one_lock_per_drive_session self inputs :
  forallb
    (fun i => negb (GearShifter_eqb (CarState.gearShifter (snd i)) park))
    inputs = true ->
  (List.length (run_door_cmds (snd (run self inputs)))
   <= if dp_toyota_auto_lock_once self then 0 else 1)%nat
  /\ Forall (fun m => m = DOOR_LOCK) (run_door_cmds (snd (run self inputs))).
Proof.
  revert self. induction inputs as [|[CC CS] inputs IH]; intros self Hall.
  - cbn. split; [|constructor]. destruct (dp_toyota_auto_lock_once self); lia.
  - cbn [forallb snd] in Hall. apply andb_prop in Hall as [Hg Hall].
    apply negb_true_iff in Hg.
    rewrite run_cons. cbn [snd]. unfold run_door_cmds in *.
    cbn [flat_map snd]. rewrite length_app.
    destruct (IH (fst (update self CC CS)) Hall) as [IHl IHf].
    pose proof (door_cycle_no_park self CC CS Hg) as Hd. cbv zeta in Hd.
    destruct (dp_toyota_auto_lock_once self).
    + destruct Hd as [Hd Ho]. rewrite Hd, Ho in *. cbn [List.length app].
      split; [lia|assumption].
    + destruct Hd as [Hd|[Hd Ho]].
      * rewrite Hd. cbn [List.length app]. split; [|assumption].
        destruct (dp_toyota_auto_lock_once _); lia.
      * rewrite Hd, Ho in *. cbn [List.length app]. split; [lia|].
        constructor; [reflexivity|assumption].
Qed.

(** *** Standstill request, continued *)

(** X13. The standstill request is never raised when it is suppressed by
    [dp_toyota_sng], or on a no-stop-timer car without a gas interceptor:
    from a controller whose request is clear it is clear after every run of
    cycles. *)
Theorem standstill_request_suppressed self inputs :
  standstill_req self = false ->
  dp_toyota_sng self = true
  \/ (car_in (CarParams.carFingerprint (CP self)) NO_STOP_TIMER_CAR = true
      /\ CarParams.enableGasInterceptor (CP self) = false) ->
  standstill_req (fst (run self inputs)) = false.
Proof.
  intros Hr Hs.
  apply (run_invariant
           (fun s => standstill_req s = false
                     /\ CP s = CP self
                     /\ dp_toyota_sng s = dp_toyota_sng self));
    [|now repeat split].
  intros s CC CS (Hr' & HC & HS).
  destruct (update_config s CC CS) as (C' & _ & _ & _ & S').
  cbv zeta in C', S'. rewrite C', S', HC, HS. repeat split.
  rewrite update_standstill_req, Hr'. unfold standstill_entry.
  rewrite HC, HS.
  destruct Hs as [Hs|[Hn Hg]].
  - rewrite Hs. cbn. now rewrite ?andb_false_r.
  - rewrite Hn, Hg. cbn. now rewrite ?andb_false_r.
Qed.

(** X16. The two door flags gate the commands only, not the door state:
    two controllers that agree on the tracked gear and the latch agree on
    both after a cycle with the same car state, whatever their flags, and
    with the doors closed the tracked gear is the gear of the cycle. *)
Theorem door_state_ignores_flags self1 self2 CC1 CC2 CS :
  dp_toyota_auto_lock_gear_prev self1 = dp_toyota_auto_lock_gear_prev self2 ->
  dp_toyota_auto_lock_once self1 = dp_toyota_auto_lock_once self2 ->
  dp_toyota_auto_lock_gear_prev (fst (update self1 CC1 CS))
  = dp_toyota_auto_lock_gear_prev (fst (update self2 CC2 CS))
  /\ dp_toyota_auto_lock_once (fst (update self1 CC1 CS))
     = dp_toyota_auto_lock_once (fst (update self2 CC2 CS))
  /\ (CarState.doorOpen CS = false ->
      dp_toyota_auto_lock_gear_prev (fst (update self1 CC1 CS))
      = CarState.gearShifter CS).
Proof.
  intros Hp Ho.
  destruct (update_door self1 CC1 CS) as (_ & -> & ->).
  destruct (update_door self2 CC2 CS) as (_ & -> & ->).
  unfold door_auto_lock. rewrite Hp, Ho.
  destruct (CarState.doorOpen CS); cbn [negb].
  - cbn [fst]. repeat split; try assumption. discriminate.
  - repeat break_if; self_simpl; rewrite ?Hp, ?Ho; repeat split; intros;
      reflexivity.
Qed.

(** X17. When lateral control is inactive, because the caller does not ask
    for it or because the driver torque is at or above 500, every LTA
    command sent is the inactive one: angle 0, request off, [setme_x64] 0. *)
Theorem lta_released_when_inactive self CC CS :
  lat_active CC CS = false ->
  Forall (fun m => m = create_lta_steer_command 0 false (frame self / 2) 0)
    (lta_cmds (snd (snd (update self CC CS)))).
Proof.
  intros Hl. rewrite update_lta_cmds, Hl. cbv zeta. cbn [andb].
  break_if; repeat constructor.
Qed.

End Controller.

(** ** The properties on the sample configuration *)

Import CarController.

Local Abbreviation on_sample f :=
  (f Sample.TSS2_CAR Sample.NO_STOP_TIMER_CAR Sample.UNSUPPORTED_DSU_CAR
     Sample.STATIC_DSU_MSGS Sample.MIN_ACC_SPEED Sample.PEDAL_TRANSITION
     Sample.apply_meas_steer_torque_limits
     Sample.apply_std_steer_angle_limits).

(** Eighteen cycles at 120 deg/s with lateral control active, then a
    nineteenth: the request flag drops and the counter restarts. *)
Lemma steer_rate_fault_avoidance_witness :
  steer_rate_counter
    (fst (on_sample run (Sample.self RAV4 torque true true)
            (repeat (Sample.CC true none, Sample.CS 0 120 20 drive false 8)
               18))) = 18
  /\ (exists a,
         steer_cmds
           (snd (snd (on_sample update
                        (fst (on_sample run (Sample.self RAV4 torque true true)
                                (repeat (Sample.CC true none,
                                         Sample.CS 0 120 20 drive false 8)
                                   18)))
                        (Sample.CC true none)
                        (Sample.CS 0 120 20 drive false 8))))
         = [(a, 0)])
  /\ steer_rate_counter
       (fst (on_sample update
               (fst (on_sample run (Sample.self RAV4 torque true true)
                       (repeat (Sample.CC true none,
                                Sample.CS 0 120 20 drive false 8)
                          18)))
               (Sample.CC true none) (Sample.CS 0 120 20 drive false 8)))
     = 0.
Proof.
  refine (proj2 (proj2 (on_sample steer_rate_fault_avoidance
                          (Sample.self RAV4 torque true true)
                          (repeat (Sample.CC true none,
                                   Sample.CS 0 120 20 drive false 8) 18)
                          (Sample.CC true none)
                          (Sample.CS 0 120 20 drive false 8)
                          _ _ _ _)));
    vm_compute; reflexivity.
Defined.

(** A driver torque of exactly 500 does not exceed 500, yet lateral control
    is inactive and the steer command is (0, 0). *)
Lemma user_override_boundary :
  CarControl.latActive (Sample.CC true none) = true
  /\ Qabs (CarState.steeringTorque (Sample.CS 500 0 12 drive false 8)) = 500%Q
  /\ lat_active (Sample.CC true none) (Sample.CS 500 0 12 drive false 8)
     = false
  /\ steer_cmds
       (snd (snd (on_sample update (Sample.self RAV4 torque true true)
                    (Sample.CC true none)
                    (Sample.CS 500 0 12 drive false 8))))
     = [(0, 0)].
Proof. repeat split; vm_compute; reflexivity. Qed.

(** Frames 300 and 301 of a car under openpilot longitudinal control with
    no cancel pending. *)
Lemma long_message_cadence_witness :
  List.length
    (long_cmds
       (snd (snd (on_sample update
                    (set_frame (Sample.self RAV4 torque true true) 300)
                    (Sample.CC true none)
                    (Sample.CS 0 0 20 drive false 8))))) = 1%nat
  /\ long_cmds
       (snd (snd (on_sample update
                    (set_frame (Sample.self RAV4 torque true true) 301)
                    (Sample.CC true none)
                    (Sample.CS 0 0 20 drive false 8)))) = [].
Proof.
  refine (proj2 (on_sample long_message_cadence
                   (Sample.self RAV4 torque true true)
                   (Sample.CC true none) (Sample.CS 0 0 20 drive false 8)
                   _ _));
    vm_compute; reflexivity.
Defined.

(** The car stops (status 8), stays stopped for a cycle, starts rolling with
    the status still 8, and then the status leaves 8. *)
Lemma standstill_request_persistence_witness :
  standstill_req
    (fst (on_sample update (Sample.self RAV4 torque true true)
            (Sample.CC true none) (Sample.CS 0 0 0 drive true 8))) = true
  /\ (forall k,
         standstill_req
           (fst (on_sample run
                   (fst (on_sample update (Sample.self RAV4 torque true true)
                           (Sample.CC true none)
                           (Sample.CS 0 0 0 drive true 8)))
                   (firstn k
                      [(Sample.CC true none, Sample.CS 0 0 0 drive true 8);
                       (Sample.CC true none, Sample.CS 0 0 1 drive false 8)])))
         = true)
  /\ standstill_req
       (fst (on_sample update
               (fst (on_sample run
                       (fst (on_sample update
                               (Sample.self RAV4 torque true true)
                               (Sample.CC true none)
                               (Sample.CS 0 0 0 drive true 8)))
                       [(Sample.CC true none, Sample.CS 0 0 0 drive true 8);
                        (Sample.CC true none, Sample.CS 0 0 1 drive false 8)]))
               (Sample.CC true none) (Sample.CS 0 0 3 drive false 7)))
     = false.
Proof.
  refine (on_sample standstill_request_persistence
            (Sample.self RAV4 torque true true)
            (Sample.CC true none) (Sample.CS 0 0 0 drive true 8)
            [(Sample.CC true none, Sample.CS 0 0 0 drive true 8);
             (Sample.CC true none, Sample.CS 0 0 1 drive false 8)]
            (Sample.CC true none) (Sample.CS 0 0 3 drive false 7)
            _ _ _ _);
    vm_compute; (reflexivity || discriminate).
Defined.

(** A forward-collision alert appears at frame 1 on a RAV4: the UI message is
    sent although 1 mod 20 <> 0, and the latch is set. *)
Lemma ui_alert_edge_witness :
  List.length
    (ui_cmds
       (snd (snd (on_sample update
                    (set_frame (Sample.self RAV4 torque true true) 1)
                    (Sample.CC true fcw)
                    (Sample.CS 0 0 20 drive false 8))))) = 1%nat
  /\ alert_active
       (fst (on_sample update
               (set_frame (Sample.self RAV4 torque true true) 1)
               (Sample.CC true fcw) (Sample.CS 0 0 20 drive false 8)))
     = true.
Proof.
  refine (proj1 (on_sample ui_alert_edge
                   (set_frame (Sample.self RAV4 torque true true) 1)
                   (Sample.CC true fcw) (Sample.CS 0 0 20 drive false 8) _)
            _);
    vm_compute; (reflexivity || discriminate).
Defined.

(** The same alert on a Prius V: the alert condition differs from the latch,
    yet no UI message is sent and the latch stays clear. *)
Lemma ui_alert_prius_v :
  alert_now (Sample.CC true fcw) = true
  /\ alert_active (set_frame (Sample.self PRIUS_V torque true true) 1)
     = false
  /\ ui_cmds
       (snd (snd (on_sample update
                    (set_frame (Sample.self PRIUS_V torque true true) 1)
                    (Sample.CC true fcw)
                    (Sample.CS 0 0 20 drive false 8)))) = []
  /\ alert_active
       (fst (on_sample update
               (set_frame (Sample.self PRIUS_V torque true true) 1)
               (Sample.CC true fcw) (Sample.CS 0 0 20 drive false 8)))
     = false.
Proof. repeat split; vm_compute; reflexivity. Qed.

(** The door scenario on the sample RAV4. *)
Lemma door_automation_scenario_witness :
  map (fun out => door_cmds (snd out))
    (snd (on_sample run
            (init (Sample.CP RAV4 torque) Sample.params
               (Sample.flags true true))
            [(Sample.CC true none, Sample.CS 0 0 5 drive false 8);
             (Sample.CC true none, Sample.CS 0 0 12 drive false 8);
             (Sample.CC true none, Sample.CS 0 0 0 park false 8);
             (Sample.CC true none, Sample.CS 0 0 12 drive false 8)]))
  = [[DOOR_LOCK]; []; [DOOR_UNLOCK]; [DOOR_LOCK]].
Proof.
  refine (on_sample door_automation_scenario
            (Sample.CP RAV4 torque) Sample.params (Sample.flags true true)
            (Sample.CC true none) (Sample.CS 0 0 5 drive false 8)
            (Sample.CC true none) (Sample.CS 0 0 12 drive false 8)
            (Sample.CC true none) (Sample.CS 0 0 0 park false 8)
            (Sample.CC true none) (Sample.CS 0 0 12 drive false 8)
            _ _ _ _ _ _ _ _ _ _ _ _ _);
    reflexivity.
Defined.

(** 5 m/s is above the lock threshold: the first cycle of the scenario
    already locks, and the second sends no door command. *)
Lemma door_scenario_first_cycle_locks :
  Qle_bool LOCK_AT_SPEED 5 = true
  /\ door_cmds
       (snd (snd (on_sample update (Sample.self RAV4 torque true true)
                    (Sample.CC true none)
                    (Sample.CS 0 0 5 drive false 8)))) = [DOOR_LOCK]
  /\ door_cmds
       (snd (snd (on_sample update
                    (fst (on_sample update (Sample.self RAV4 torque true true)
                            (Sample.CC true none)
                            (Sample.CS 0 0 5 drive false 8)))
                    (Sample.CC true none)
                    (Sample.CS 0 0 12 drive false 8)))) = [].
Proof. repeat split; vm_compute; reflexivity. Qed.

(** Starting at 2 m/s instead, below the threshold, the first cycle sends no
    door command and the lock command comes with the 12 m/s cycle. *)
Lemma door_scenario_below_threshold :
  map (fun out => door_cmds (snd out))
    (snd (on_sample run (Sample.self RAV4 torque true true)
            [(Sample.CC true none, Sample.CS 0 0 2 drive false 8);
             (Sample.CC true none, Sample.CS 0 0 12 drive false 8);
             (Sample.CC true none, Sample.CS 0 0 0 park false 8);
             (Sample.CC true none, Sample.CS 0 0 12 drive false 8)]))
  = [[]; [DOOR_LOCK]; [DOOR_UNLOCK]; [DOOR_LOCK]].
Proof. vm_compute. reflexivity. Qed.

(** C8. The two door flags are swapped (lines 76 and 80). With only
    [dp_toyota_auto_unlock] set, driving at 12 m/s and then parking sends a
    lock command and no unlock command; with only [dp_toyota_auto_lock] set
    it sends no lock command and an unlock command. *)
Theorem door_flags_swapped :
  map (fun out => door_cmds (snd out))
    (snd (on_sample run (Sample.self RAV4 torque false true)
            [(Sample.CC true none, Sample.CS 0 0 12 drive false 8);
             (Sample.CC true none, Sample.CS 0 0 0 park false 8)]))
  = [[DOOR_LOCK]; []]
  /\ map (fun out => door_cmds (snd out))
       (snd (on_sample run (Sample.self RAV4 torque true false)
               [(Sample.CC true none, Sample.CS 0 0 12 drive false 8);
                (Sample.CC true none, Sample.CS 0 0 0 park false 8)]))
     = [[]; [DOOR_UNLOCK]].
Proof. split; vm_compute; reflexivity. Qed.

(** Angle control on a TSS2 car with lateral control inactive: the stored
    and echoed angle is the measured 10 degrees, the LTA command carries 0. *)
Lemma lta_command_inactive_angle :
  last_angle
    (fst (on_sample update
            (Sample.self (OTHER "TOYOTA RAV4 2019") angle true true)
            (Sample.CC false none) (Sample.CS 0 0 12 drive false 8)))
  = 10%Q
  /\ Actuators.steeringAngleDeg
       (fst (snd (on_sample update
                    (Sample.self (OTHER "TOYOTA RAV4 2019") angle true true)
                    (Sample.CC false none)
                    (Sample.CS 0 0 12 drive false 8)))) = 10%Q
  /\ lta_angles
       (snd (snd (on_sample update
                    (Sample.self (OTHER "TOYOTA RAV4 2019") angle true true)
                    (Sample.CC false none)
                    (Sample.CS 0 0 12 drive false 8)))) = [0%Q].
Proof. repeat split; vm_compute; reflexivity. Qed.

(** ** The further properties on the sample configuration *)

(** The counter is at 18 and the rate is high: the command keeps the torque
    750 and drops the request. *)
Lemma steer_rate_cut_keeps_torque_witness :
  steer_cmds
    (snd (snd (on_sample update
                 (set_steer_rate_counter (Sample.self RAV4 torque true true)
                    18)
                 (Sample.CC true none) (Sample.CS 0 120 20 drive false 8))))
  = [(750, 0)].
Proof.
  refine (proj1 (on_sample steer_rate_cut_keeps_torque
                   (set_steer_rate_counter
                      (Sample.self RAV4 torque true true) 18)
                   (Sample.CC true none) (Sample.CS 0 120 20 drive false 8)
                   _ _) _ _);
    vm_compute; reflexivity.
Defined.

Lemma accel_command_limits_witness :
  Forall
    (fun cmd =>
       let '(a, c, s, l) := cmd in
       c = false /\ l = false
       /\ (-3.5 <= a <= 1.5)%Q /\ s = false)
    (accel_cmds
       (snd (snd (on_sample update (Sample.self RAV4 torque true true)
                    (Sample.CC true none)
                    (Sample.CS 0 0 20 drive false 8))))).
Proof.
  refine (on_sample accel_command_limits (Sample.self RAV4 torque true true)
            (Sample.CC true none) (Sample.CS 0 0 20 drive false 8) _).
  vm_compute. discriminate.
Defined.

Lemma long_message_every_third_cycle_witness :
  List.length
    (run_long_cmds
       (snd (on_sample run
               (set_frame (Sample.self RAV4 torque true true) 7)
               [(Sample.CC true none, Sample.CS 0 0 20 drive false 8);
                (Sample.CC true none, Sample.CS 0 0 20 drive false 8);
                (Sample.CC true none, Sample.CS 0 0 20 drive false 8)])))
  = 1%nat.
Proof.
  refine (on_sample long_message_every_third_cycle
            (set_frame (Sample.self RAV4 torque true true) 7)
            (Sample.CC true none, Sample.CS 0 0 20 drive false 8)
            (Sample.CC true none, Sample.CS 0 0 20 drive false 8)
            (Sample.CC true none, Sample.CS 0 0 20 drive false 8)
            _ _ _ _);
    reflexivity.
Defined.

(** A cancel at frame 1 on a Lexus IS and on a RAV4. *)
Lemma cancel_is_immediate_witness :
  (exists m,
      long_cmds
        (snd (snd (on_sample update
                     (set_frame
                        (Sample.self (OTHER "LEXUS IS 2018") torque true true)
                        1)
                     Sample.CC_cancel (Sample.CS 0 0 20 drive false 8))))
      = [m]
      /\ m = create_acc_cancel_command)
  /\ (exists m,
         long_cmds
           (snd (snd (on_sample update
                        (set_frame (Sample.self RAV4 torque true true) 1)
                        Sample.CC_cancel (Sample.CS 0 0 20 drive false 8))))
         = [m]
         /\ exists a s l ty, m = create_accel_command a true s l ty).
Proof.
  split.
  - refine (proj1 (on_sample cancel_is_immediate
                     (set_frame
                        (Sample.self (OTHER "LEXUS IS 2018") torque true true)
                        1)
                     Sample.CC_cancel (Sample.CS 0 0 20 drive false 8) _)).
    left. reflexivity.
  - refine (proj1 (on_sample cancel_is_immediate
                     (set_frame (Sample.self RAV4 torque true true) 1)
                     Sample.CC_cancel (Sample.CS 0 0 20 drive false 8) _)).
    left. reflexivity.
Defined.

Lemma no_dsu_no_fcw_no_static_witness :
  fcw_cmds
    (snd (snd (on_sample update (Sample.self_lat_only RAV4)
                 (Sample.CC true fcw) (Sample.CS 0 0 20 drive false 8))))
  = []
  /\ can_msgs
       (snd (snd (on_sample update (Sample.self_lat_only RAV4)
                    (Sample.CC true fcw) (Sample.CS 0 0 20 drive false 8))))
     = door_cmds
         (snd (snd (on_sample update (Sample.self_lat_only RAV4)
                      (Sample.CC true fcw)
                      (Sample.CS 0 0 20 drive false 8)))).
Proof.
  refine (on_sample no_dsu_no_fcw_no_static (Sample.self_lat_only RAV4)
            (Sample.CC true fcw) (Sample.CS 0 0 20 drive false 8) _).
  reflexivity.
Defined.

(** Shifting to drive at 12 m/s with a door open. *)
Lemma door_open_freezes_witness :
  door_cmds
    (snd (snd (on_sample update (Sample.self RAV4 torque true true)
                 (Sample.CC true none) (Sample.CS_door_open 12 drive))))
  = []
  /\ dp_toyota_auto_lock_gear_prev
       (fst (on_sample update (Sample.self RAV4 torque true true)
               (Sample.CC true none) (Sample.CS_door_open 12 drive)))
     = park
  /\ dp_toyota_auto_lock_once
       (fst (on_sample update (Sample.self RAV4 torque true true)
               (Sample.CC true none) (Sample.CS_door_open 12 drive)))
     = false.
Proof.
  refine (on_sample door_open_freezes (Sample.self RAV4 torque true true)
            (Sample.CC true none) (Sample.CS_door_open 12 drive) _).
  reflexivity.
Defined.

(** Drive, neutral, drive again, all at speed: one lock command in all. *)
Lemma one_lock_per_drive_session_witness :
  (List.length
     (run_door_cmds
        (snd (on_sample run (Sample.self RAV4 torque true true)
                [(Sample.CC true none, Sample.CS 0 0 12 drive false 8);
                 (Sample.CC true none, Sample.CS 0 0 12 neutral false 8);
                 (Sample.CC true none, Sample.CS 0 0 12 drive false 8)])))
   <= 1)%nat
  /\ Forall (fun m => m = DOOR_LOCK)
       (run_door_cmds
          (snd (on_sample run (Sample.self RAV4 torque true true)
                  [(Sample.CC true none, Sample.CS 0 0 12 drive false 8);
                   (Sample.CC true none, Sample.CS 0 0 12 neutral false 8);
                   (Sample.CC true none, Sample.CS 0 0 12 drive false 8)]))).
Proof.
  refine (on_sample one_lock_per_drive_session
            (Sample.self RAV4 torque true true)
            [(Sample.CC true none, Sample.CS 0 0 12 drive false 8);
             (Sample.CC true none, Sample.CS 0 0 12 neutral false 8);
             (Sample.CC true none, Sample.CS 0 0 12 drive false 8)] _).
  reflexivity.
Defined.


(** The sample RAV4 2019 is a no-stop-timer car without a gas interceptor:
    stopping does not raise the request. *)
Lemma standstill_request_suppressed_witness :
  standstill_req
    (fst (on_sample run
            (Sample.self (OTHER "TOYOTA RAV4 2019") torque true true)
            [(Sample.CC true none, Sample.CS 0 0 1 drive false 8);
             (Sample.CC true none, Sample.CS 0 0 0 drive true 8);
             (Sample.CC true none, Sample.CS 0 0 0 drive true 8)]))
  = false.
Proof.
  refine (on_sample standstill_request_suppressed
            (Sample.self (OTHER "TOYOTA RAV4 2019") torque true true)
            [(Sample.CC true none, Sample.CS 0 0 1 drive false 8);
             (Sample.CC true none, Sample.CS 0 0 0 drive true 8);
             (Sample.CC true none, Sample.CS 0 0 0 drive true 8)] _ _).
  - reflexivity.
  - right. split; reflexivity.
Defined.

(** Angle control, frame 0, lateral control inactive: the stored angle is
    the measured 10 degrees, not the 5 degrees asked for. *)
Lemma stored_angle_update_witness :
  last_angle
    (fst (on_sample update
            (Sample.self (OTHER "TOYOTA RAV4 2019") angle true true)
            (Sample.CC false none) (Sample.CS 0 0 12 drive false 8)))
  = clip (10 + 0) (- MAX_STEER_ANGLE) MAX_STEER_ANGLE.
Proof.
  refine (proj1 (proj2 (on_sample stored_angle_update
                          (Sample.self (OTHER "TOYOTA RAV4 2019") angle
                             true true)
                          (Sample.CC false none)
                          (Sample.CS 0 0 12 drive false 8) _)) _ _);
    reflexivity.
Defined.

Lemma no_long_message_without_long_control_witness :
  run_long_cmds
    (snd (on_sample run (Sample.self_lat_only RAV4)
            [(Sample.CC true none, Sample.CS 0 0 20 drive false 8);
             (Sample.CC true none, Sample.CS 0 0 20 drive false 8);
             (Sample.CC true none, Sample.CS 0 0 20 drive false 8);
             (Sample.CC true none, Sample.CS 0 0 20 drive false 8)]))
  = [].
Proof.
  refine (on_sample no_long_message_without_long_control
            (Sample.self_lat_only RAV4)
            [(Sample.CC true none, Sample.CS 0 0 20 drive false 8);
             (Sample.CC true none, Sample.CS 0 0 20 drive false 8);
             (Sample.CC true none, Sample.CS 0 0 20 drive false 8);
             (Sample.CC true none, Sample.CS 0 0 20 drive false 8)] _ _);
    reflexivity.
Defined.

(** With no flag set and with both set, shifting to drive at speed latches
    alike. *)
Lemma door_state_ignores_flags_witness :
  dp_toyota_auto_lock_gear_prev
    (fst (on_sample update (Sample.self RAV4 torque false false)
            (Sample.CC true none) (Sample.CS 0 0 12 drive false 8)))
  = dp_toyota_auto_lock_gear_prev
      (fst (on_sample update (Sample.self RAV4 torque true true)
              (Sample.CC false none) (Sample.CS 0 0 12 drive false 8)))
  /\ dp_toyota_auto_lock_once
       (fst (on_sample update (Sample.self RAV4 torque false false)
               (Sample.CC true none) (Sample.CS 0 0 12 drive false 8)))
     = dp_toyota_auto_lock_once
         (fst (on_sample update (Sample.self RAV4 torque true true)
                 (Sample.CC false none) (Sample.CS 0 0 12 drive false 8)))
  /\ (CarState.doorOpen (Sample.CS 0 0 12 drive false 8) = false ->
      dp_toyota_auto_lock_gear_prev
        (fst (on_sample update (Sample.self RAV4 torque false false)
                (Sample.CC true none) (Sample.CS 0 0 12 drive false 8)))
      = CarState.gearShifter (Sample.CS 0 0 12 drive false 8)).
Proof.
  refine (on_sample door_state_ignores_flags
            (Sample.self RAV4 torque false false)
            (Sample.self RAV4 torque true true)
            (Sample.CC true none) (Sample.CC false none)
            (Sample.CS 0 0 12 drive false 8) _ _);
    reflexivity.
Defined.

(** The driver holds the wheel with torque 600 on an angle-control car. *)
Lemma lta_released_when_inactive_witness :
  Forall (fun m => m = create_lta_steer_command 0 false (0 / 2) 0)
    (lta_cmds
       (snd (snd (on_sample update
                    (Sample.self (OTHER "TOYOTA RAV4 2019") angle true true)
                    (Sample.CC true none)
                    (Sample.CS 600 0 12 drive false 8))))).
Proof.
  refine (on_sample lta_released_when_inactive
            (Sample.self (OTHER "TOYOTA RAV4 2019") angle true true)
            (Sample.CC true none) (Sample.CS 600 0 12 drive false 8) _).
  reflexivity.
Defined.
